(** * Device pairing-code endpoint (selene-backend, public API)

    A shallow embedding of [api/public/public_api/endpoints/device_code.py]:
    the [DeviceCodeEndpoint] class with its [get], [_build_response],
    [_generate_token], [_generate_pairing_code] and
    [_add_pairing_code_to_cache] methods, together with the parts of the
    Python standard library those methods call ([hashlib.sha512],
    [uuid.uuid4], [random.choice], [dict], [str.format]).

    Python [str] values are modelled by Rocq strings (their UTF-8 bytes), so
    [bytes(s, "utf-8")] is the list of character codes of [s]. *)

From Stdlib Require Import Ascii.
From stdpp Require Import gmap strings list pretty.

Local Open Scope Z_scope.

(** ** Bytes and their hexadecimal text

    A byte is a [Z] in [0, 256). *)

Module Bytes.

(** Big-endian bytes of a number, [n] of them ([int.to_bytes(n, "big")]). *)
Fixpoint be_bytes (n : nat) (x : Z) : list Z :=
  match n with
  | O => []
  | S n' => be_bytes n' (x / 256) ++ [x mod 256]
  end.

Definition hex_digits : string := "0123456789abcdef".

Definition hex_digit (d : Z) : ascii :=
  default "0"%char (String.get (Z.to_nat d) hex_digits).

(** [bytes.hex()]: two lowercase digits per byte. *)
Fixpoint hex_of_bytes (bs : list Z) : string :=
  match bs with
  | [] => EmptyString
  | b :: bs' =>
      String (hex_digit (b / 16 mod 16))
             (String (hex_digit (b mod 16)) (hex_of_bytes bs'))
  end.

(** [bytes(s, "utf-8")]. *)
Definition of_str (s : string) : list Z :=
  (fun c => Z.of_nat (nat_of_ascii c)) <$> String.list_ascii_of_string s.

End Bytes.

(** ** hashlib.sha512 (FIPS 180-4), on 64-bit words written as [Z] *)

Module SHA512.
Import Bytes.

(** The low 64 bits. *)
Definition mask : Z := 0xffffffffffffffff.

Definition add64 (a b : Z) : Z := Z.land (a + b) mask.

Definition not64 (x : Z) : Z := Z.lxor x mask.

Definition rotr (n x : Z) : Z :=
  Z.land (Z.lor (Z.shiftr x n) (Z.shiftl x (64 - n))) mask.

Definition shr (n x : Z) : Z := Z.shiftr x n.

Definition Ch (x y z : Z) : Z :=
  Z.lxor (Z.land x y) (Z.land (not64 x) z).

Definition Maj (x y z : Z) : Z :=
  Z.lxor (Z.lxor (Z.land x y) (Z.land x z)) (Z.land y z).

Definition Sigma0 (x : Z) : Z :=
  Z.lxor (Z.lxor (rotr 28 x) (rotr 34 x)) (rotr 39 x).

Definition Sigma1 (x : Z) : Z :=
  Z.lxor (Z.lxor (rotr 14 x) (rotr 18 x)) (rotr 41 x).

Definition sigma0 (x : Z) : Z :=
  Z.lxor (Z.lxor (rotr 1 x) (rotr 8 x)) (shr 7 x).

Definition sigma1 (x : Z) : Z :=
  Z.lxor (Z.lxor (rotr 19 x) (rotr 61 x)) (shr 6 x).

Definition K : list Z :=
  [ 0x428a2f98d728ae22; 0x7137449123ef65cd; 0xb5c0fbcfec4d3b2f; 0xe9b5dba58189dbbc;
    0x3956c25bf348b538; 0x59f111f1b605d019; 0x923f82a4af194f9b; 0xab1c5ed5da6d8118;
    0xd807aa98a3030242; 0x12835b0145706fbe; 0x243185be4ee4b28c; 0x550c7dc3d5ffb4e2;
    0x72be5d74f27b896f; 0x80deb1fe3b1696b1; 0x9bdc06a725c71235; 0xc19bf174cf692694;
    0xe49b69c19ef14ad2; 0xefbe4786384f25e3; 0x0fc19dc68b8cd5b5; 0x240ca1cc77ac9c65;
    0x2de92c6f592b0275; 0x4a7484aa6ea6e483; 0x5cb0a9dcbd41fbd4; 0x76f988da831153b5;
    0x983e5152ee66dfab; 0xa831c66d2db43210; 0xb00327c898fb213f; 0xbf597fc7beef0ee4;
    0xc6e00bf33da88fc2; 0xd5a79147930aa725; 0x06ca6351e003826f; 0x142929670a0e6e70;
    0x27b70a8546d22ffc; 0x2e1b21385c26c926; 0x4d2c6dfc5ac42aed; 0x53380d139d95b3df;
    0x650a73548baf63de; 0x766a0abb3c77b2a8; 0x81c2c92e47edaee6; 0x92722c851482353b;
    0xa2bfe8a14cf10364; 0xa81a664bbc423001; 0xc24b8b70d0f89791; 0xc76c51a30654be30;
    0xd192e819d6ef5218; 0xd69906245565a910; 0xf40e35855771202a; 0x106aa07032bbd1b8;
    0x19a4c116b8d2d0c8; 0x1e376c085141ab53; 0x2748774cdf8eeb99; 0x34b0bcb5e19b48a8;
    0x391c0cb3c5c95a63; 0x4ed8aa4ae3418acb; 0x5b9cca4f7763e373; 0x682e6ff3d6b2b8a3;
    0x748f82ee5defb2fc; 0x78a5636f43172f60; 0x84c87814a1f0ab72; 0x8cc702081a6439ec;
    0x90befffa23631e28; 0xa4506cebde82bde9; 0xbef9a3f7b2c67915; 0xc67178f2e372532b;
    0xca273eceea26619c; 0xd186b8c721c0c207; 0xeada7dd6cde0eb1e; 0xf57d4f7fee6ed178;
    0x06f067aa72176fba; 0x0a637dc5a2c898a6; 0x113f9804bef90dae; 0x1b710b35131c471b;
    0x28db77f523047d84; 0x32caab7b40c72493; 0x3c9ebe0a15c9bebc; 0x431d67c49c100d4c;
    0x4cc5d4becb3e42b6; 0x597f299cfc657e2a; 0x5fcb6fab3ad6faec; 0x6c44198c4a475817 ].

(** The eight working variables, and the chaining value between blocks. *)
Record state := State { sa : Z; sb : Z; sc : Z; sd : Z;
                        se : Z; sf : Z; sg : Z; sh : Z }.

Definition H0 : state :=
  State 0x6a09e667f3bcc908 0xbb67ae8584caa73b 0x3c6ef372fe94f82b 0xa54ff53a5f1d36f1
        0x510e527fade682d1 0x9b05688c2b3e6c1f 0x1f83d9abfb41bd6b 0x5be0cd19137e2179.

Definition be_word (bs : list Z) : Z :=
  fold_left (fun acc b => acc * 256 + b) bs 0.

(** Padding: a 1 bit, zeros up to 112 mod 128 bytes, the bit length on 128
    bits. *)
Definition pad (msg : list Z) : list Z :=
  let len := Z.of_nat (length msg) in
  let zeros := Z.to_nat ((111 - len) mod 128) in
  msg ++ [128] ++ repeat 0 zeros ++ be_bytes 16 (8 * len).

Fixpoint words (n : nat) (bs : list Z) : list Z :=
  match n with
  | O => []
  | S n' => be_word (take 8 bs) :: words n' (drop 8 bs)
  end.

(** Message schedule, kept most recent word first: [rev_w] holds
    W(t-1), W(t-2), ... and the next word is
    sigma1(W(t-2)) + W(t-7) + sigma0(W(t-15)) + W(t-16). *)
Fixpoint schedule (n : nat) (rev_w : list Z) : list Z :=
  match n with
  | O => rev_w
  | S n' =>
      let w := add64 (add64 (sigma1 (nth 1 rev_w 0)) (nth 6 rev_w 0))
                     (add64 (sigma0 (nth 14 rev_w 0)) (nth 15 rev_w 0)) in
      schedule n' (w :: rev_w)
  end.

Definition round (s : state) (kw : Z * Z) : state :=
  let '(k, w) := kw in
  let t1 := add64 (add64 (add64 (sh s) (Sigma1 (se s)))
                         (add64 (Ch (se s) (sf s) (sg s)) k)) w in
  let t2 := add64 (Sigma0 (sa s)) (Maj (sa s) (sb s) (sc s)) in
  State (add64 t1 t2) (sa s) (sb s) (sc s) (add64 (sd s) t1) (se s) (sf s) (sg s).

Definition compress (h : state) (block : list Z) : state :=
  let w := rev (schedule 64 (rev (words 16 block))) in
  let s := fold_left round (combine K w) h in
  State (add64 (sa h) (sa s)) (add64 (sb h) (sb s)) (add64 (sc h) (sc s))
        (add64 (sd h) (sd s)) (add64 (se h) (se s)) (add64 (sf h) (sf s))
        (add64 (sg h) (sg s)) (add64 (sh h) (sh s)).

Fixpoint blocks (n : nat) (h : state) (bs : list Z) : state :=
  match n with
  | O => h
  | S n' => blocks n' (compress h (take 128 bs)) (drop 128 bs)
  end.

Definition hash (msg : list Z) : state :=
  let p := pad msg in
  blocks (length p / 128) H0 p.

Definition digest (msg : list Z) : list Z :=
  let h := hash msg in
  flat_map (be_bytes 8) [sa h; sb h; sc h; sd h; se h; sf h; sg h; sh h].

Definition hexdigest (msg : list Z) : string := hex_of_bytes (digest msg).

End SHA512.

(** ** uuid.uuid4 and str(UUID) *)

Module UUID.

(** [UUID.__init__(bytes=..., version=4)]: the variant bits are set to
    RFC 4122 and the version nibble to 4. *)
Definition set_version4 (int : Z) : Z :=
  let int := Z.land int (Z.lnot (Z.shiftl 0xc000 48)) in
  let int := Z.lor int (Z.shiftl 0x8000 48) in
  let int := Z.land int (Z.lnot (Z.shiftl 0xf000 64)) in
  Z.lor int (Z.shiftl 4 76).

(** [UUID.__str__]: ['%032x' % int], cut 8-4-4-4-12. *)
Definition str (int : Z) : string :=
  let hex := Bytes.hex_of_bytes (Bytes.be_bytes 16 int) in
  String.substring 0 8 hex +:+ "-" +:+ String.substring 8 4 hex +:+ "-" +:+
  String.substring 12 4 hex +:+ "-" +:+ String.substring 16 4 hex +:+ "-" +:+
  String.substring 20 12 hex.

End UUID.

(** ** Python values, dicts and exceptions *)

Inductive PyVal :=
| PyStr (s : string)
| PyInt (z : Z).

(** [str(v)], as [str.format] applies it to a field. *)
Definition py_str (v : PyVal) : string :=
  match v with
  | PyStr s => s
  | PyInt z => pretty z
  end.

(** A [dict] with [str] keys keeps its insertion order: an association list
    without duplicate keys. *)
Definition PyDict := list (string * PyVal).

Fixpoint dict_get (k : string) (d : PyDict) : option PyVal :=
  match d with
  | [] => None
  | (k', v) :: d' => if String.eqb k k' then Some v else dict_get k d'
  end.

(** [d.update(k=v)]: the value of an existing key is replaced in place, a new
    key goes last. *)
Fixpoint dict_update (k : string) (v : PyVal) (d : PyDict) : PyDict :=
  match d with
  | [] => [(k, v)]
  | (k', v') :: d' =>
      if String.eqb k k' then (k', v) :: d' else (k', v') :: dict_update k v d'
  end.

Definition dict_keys (d : PyDict) : list string := fst <$> d.

Inductive PyExc :=
| KeyError (key : string)
| IndexError (msg : string).

(** ** The world an endpoint call runs in *)

(** What the call does to its collaborators, in the order it happens. *)
Inductive event :=
| LogDebug (msg : string)
| CacheSet (key value : string) (expiration : Z) (added : bool).

(** The cache collaborator ([self.cache], a [SeleneCache]): the endpoint uses
    one method of it. *)
Class Cache (C : Type) :=
  set_if_not_exists_with_expiration : string -> string -> Z -> C -> bool * C.

Record World (C : Type) := mkWorld {
  cache : C;            (* the contents of [self.cache] *)
  urandom_pos : nat;    (* how many [os.urandom(16)] blocks were read *)
  random_pos : nat;     (* how many numbers the [random] module drew *)
  trace : list event    (* log lines and cache calls so far *)
}.
Arguments mkWorld {C}.
Arguments cache {C}.
Arguments urandom_pos {C}.
Arguments random_pos {C}.
Arguments trace {C}.

(** A call returns, raises, or is still in its loop when the fuel is gone. *)
Inductive outcome (A : Type) :=
| Returned (a : A)
| Raised (e : PyExc)
| OutOfFuel.
Arguments Returned {A}.
Arguments Raised {A}.
Arguments OutOfFuel {A}.

Definition M (C A : Type) : Type := World C -> outcome A * World C.

Definition ret {C A} (a : A) : M C A := fun w => (Returned a, w).

Definition raise {C A} (e : PyExc) : M C A := fun w => (Raised e, w).

Definition out_of_fuel {C A} : M C A := fun w => (OutOfFuel, w).

Definition bind {C A B} (c : M C A) (k : A -> M C B) : M C B :=
  fun w =>
    match c w with
    | (Returned a, w') => k a w'
    | (Raised e, w') => (Raised e, w')
    | (OutOfFuel, w') => (OutOfFuel, w')
    end.

Declare Scope py_scope.
Delimit Scope py_scope with py.
Notation "x <- c ;; k" := (bind c (fun x => k))
  (at level 100, c at next level, right associativity) : py_scope.
Notation "c ;; k" := (bind c (fun _ => k))
  (at level 100, right associativity) : py_scope.
Local Open Scope py_scope.

Definition emit {C} (e : event) : M C unit :=
  fun w => (Returned tt,
            mkWorld (cache w) (urandom_pos w) (random_pos w) (trace w ++ [e])).

(** [_log.debug(msg)] *)
Definition log_debug {C} (msg : string) : M C unit := emit (LogDebug msg).

(** [d[k]] *)
Definition dict_getitem {C} (k : string) (d : PyDict) : M C PyVal :=
  match dict_get k d with
  | Some v => ret v
  | None => raise (KeyError k)
  end.

(** [self.cache.set_if_not_exists_with_expiration(key, value=..., expiration=...)] *)
Definition cache_set_if_not_exists_with_expiration `{Cache C}
    (key value : string) (expiration : Z) : M C bool :=
  fun w =>
    let '(added, c) := set_if_not_exists_with_expiration key value expiration (cache w) in
    (Returned added,
     mkWorld c (urandom_pos w) (random_pos w)
             (trace w ++ [CacheSet key value expiration added])).

(** ** The request *)

Record Request := { args : gmap string string }.

(** The endpoint object, [self]. Its cache is part of the world. *)
Record Self := { request : Request }.

(** [self.request.args[k]] *)
Definition args_getitem {C} (self : Self) (k : string) : M C string :=
  match args (request self) !! k with
  | Some v => ret v
  | None => raise (KeyError k)
  end.

(** [self.request.args.get(k)] *)
Definition args_get (self : Self) (k : string) : option string :=
  args (request self) !! k.

(** ** The endpoint *)

Definition ALLOWED_CHARACTERS : string := "ACEFHJKLMNPRTUVWXY3479".
Definition ONE_DAY : Z := 86400.
Definition HTTPStatus_OK : Z := 200.

Module DeviceCodeEndpoint.
Section Methods.

Context {C : Type} `{Cache C}.

(** The entropy of the run: what [os.urandom] and the [random] module
    return at each read. Every sequence of results of the real generators is
    one choice of the two tapes. *)
Variable urandom_tape : nat -> Z.
Variable random_tape : nat -> nat.

(** [DEVICE_PAIRING_CODE_KEY] of [selene.util.cache] is a format string with
    one field; the variable is [DEVICE_PAIRING_CODE_KEY.format(pairing_code=c)]
    as a function of [c]. *)
Variable DEVICE_PAIRING_CODE_KEY : string -> string.

(** [json.dumps] on a dict. *)
Variable json_dumps : PyDict -> string.

(** [os.urandom(16)] read as a big-endian number. *)
Definition urandom16 : M C Z :=
  fun w => (Returned (urandom_tape (urandom_pos w) mod 2 ^ 128),
            mkWorld (cache w) (S (urandom_pos w)) (random_pos w) (trace w)).

(** [uuid.uuid4()] *)
Definition uuid4 : M C Z :=
  r <- urandom16 ;;
  ret (UUID.set_version4 r).

(** [random._randbelow(n)]: some number below [n]. *)
Definition randbelow (n : nat) : M C nat :=
  fun w => (Returned (random_tape (random_pos w) `mod` n)%nat,
            mkWorld (cache w) (urandom_pos w) (S (random_pos w)) (trace w)).

(** [random.choice(seq)] *)
Definition choice (seq : string) : M C ascii :=
  match String.length seq with
  | O => raise (IndexError "Cannot choose from an empty sequence")
  | n =>
      i <- randbelow n ;;
      match String.get i seq with
      | Some c => ret c
      | None => raise (IndexError "string index out of range")
      end
  end.

(** [str.join] of [n] results of [random.choice(seq)], with the empty separator *)
Fixpoint join_choices (n : nat) (seq : string) : M C string :=
  match n with
  | O => ret EmptyString
  | S n' =>
      c <- choice seq ;;
      s <- join_choices n' seq ;;
      ret (String c s)
  end.

Definition _generate_token : M C string :=
  u <- uuid4 ;;
  ret (SHA512.hexdigest (Bytes.of_str (UUID.str u))).

Definition _generate_pairing_code : M C string :=
  pairing_code <- join_choices 6 ALLOWED_CHARACTERS ;;
  log_debug ("Generated pairing code " +:+ pairing_code) ;;
  ret pairing_code.

(** [cache_value] is a new dict with the items of [response_data]: the update
    with the packaging type does not reach [response_data]. The message of
    the collision is formatted, with the item ["pairing_code"] of
    [response_data], before [_log.debug] is called. *)
Definition _add_pairing_code_to_cache (self : Self)
    (response_data : PyDict) : M C bool :=
  code <- dict_getitem "code" response_data ;;
  let cache_key := DEVICE_PAIRING_CODE_KEY (py_str code) in
  let cache_value := response_data in
  let core_packaging_type := args_get self "packaging" in
  let cache_value :=
    match core_packaging_type with
    | Some p => dict_update "packaging_type" (PyStr p) cache_value
    | None => cache_value
    end in
  added_to_cache <-
    cache_set_if_not_exists_with_expiration
      cache_key (json_dumps cache_value) ONE_DAY ;;
  (if added_to_cache then ret tt
   else
     pairing_code <- dict_getitem "pairing_code" response_data ;;
     log_debug ("Pairing code " +:+ py_str pairing_code +:+
                " exists, generating new code")) ;;
  ret added_to_cache.

(** The first statement of [_build_response]: the keyword arguments of
    [dict(...)] are evaluated from left to right. *)
Definition initial_response_data (self : Self) : M C PyDict :=
  state <- args_getitem self "state" ;;
  token <- _generate_token ;;
  ret [("state", PyStr state); ("token", PyStr token); ("expiration", PyInt ONE_DAY)].

(** The body of the [while not added_to_cache] loop: it returns the new value
    of [added_to_cache] and the updated dict. *)
Definition retry_iteration (self : Self) (response_data : PyDict)
    : M C (bool * PyDict) :=
  pairing_code <- _generate_pairing_code ;;
  let response_data := dict_update "code" (PyStr pairing_code) response_data in
  added_to_cache <- _add_pairing_code_to_cache self response_data ;;
  ret (added_to_cache, response_data).

(** The loop itself, entered with [added_to_cache = False]; [fuel] bounds the
    number of iterations. *)
Fixpoint retry_loop (fuel : nat) (self : Self)
    (response_data : PyDict) : M C PyDict :=
  match fuel with
  | O => out_of_fuel
  | S fuel' =>
      r <- retry_iteration self response_data ;;
      if r.1 then ret r.2 else retry_loop fuel' self r.2
  end.

Definition _build_response (fuel : nat) (self : Self) : M C PyDict :=
  response_data <- initial_response_data self ;;
  retry_loop fuel self response_data.

Definition get (fuel : nat) (self : Self) : M C (PyDict * Z) :=
  response_data <- _build_response fuel self ;;
  ret (response_data, HTTPStatus_OK).

End Methods.
End DeviceCodeEndpoint.

(** ** Caches *)

(** Modelled from the spec: [SeleneCache.set_if_not_exists_with_expiration] of
    [selene.util.cache], which is not among the sources. It "returns true iff
    this call created the key (false if key already existed; TTL untouched in
    that case)". The store is the list of its entries, the latest first; an
    entry is a key with its value and time-to-live. *)
Definition Store : Type := list (string * (string * Z)).

Fixpoint store_get (key : string) (c : Store) : option (string * Z) :=
  match c with
  | [] => None
  | (key', entry) :: c' => if String.eqb key key' then Some entry else store_get key c'
  end.

Definition store_set_if_not_exists_with_expiration
    (key value : string) (expiration : Z) (c : Store) : bool * Store :=
  match store_get key c with
  | Some _ => (false, c)
  | None => (true, (key, (value, expiration)) :: c)
  end.

#[export] Instance StoreCache : Cache Store :=
  store_set_if_not_exists_with_expiration.

(** A test double: it rejects the first [rejections] set-attempts and accepts
    every later one. *)
Record MockCache := { rejections : nat }.

#[export] Instance MockCache_Cache : Cache MockCache :=
  fun _ _ _ c =>
    match rejections c with
    | O => (true, c)
    | S n => (false, {| rejections := n |})
    end.

(** ** Requests served concurrently

    Each request is served by a worker of its own, with its own request object,
    generators and log; the workers share the cache, whose
    set-if-not-exists is atomic. A worker stands at the start of
    [_build_response], at the head of its loop, or has finished; one step of
    a worker runs it up to and including its next cache call (and the local
    statements that follow it), so a schedule, the list of the workers that
    step, fixes the order in which the cache calls take effect. *)

Module Concurrent.

Inductive status :=
| AtStart
| InLoop (response_data : PyDict)
| Finished (o : outcome PyDict).

Record worker := mkWorker {
  wk_self : Self;
  wk_urandom_tape : nat -> Z;
  wk_random_tape : nat -> nat;
  wk_urandom_pos : nat;
  wk_random_pos : nat;
  wk_trace : list event;
  wk_status : status
}.

Definition spawn (self : Self)
    (urandom_tape : nat -> Z) (random_tape : nat -> nat) : worker :=
  mkWorker self urandom_tape random_tape 0%nat 0%nat [] AtStart.

Section Pool.

Context {C : Type} `{Cache C}.
Variable DEVICE_PAIRING_CODE_KEY : string -> string.
Variable json_dumps : PyDict -> string.

Definition resume (t : worker) (st : status) (w : World C) : worker * C :=
  (mkWorker (wk_self t) (wk_urandom_tape t) (wk_random_tape t)
            (urandom_pos w) (random_pos w) (trace w) st,
   cache w).

Definition step (t : worker) (c : C) : worker * C :=
  let w := mkWorld c (wk_urandom_pos t) (wk_random_pos t) (wk_trace t) in
  match wk_status t with
  | AtStart =>
      match DeviceCodeEndpoint.initial_response_data (wk_urandom_tape t) (wk_self t) w with
      | (Returned response_data, w') => resume t (InLoop response_data) w'
      | (Raised e, w') => resume t (Finished (Raised e)) w'
      | (OutOfFuel, w') => resume t (Finished OutOfFuel) w'
      end
  | InLoop response_data =>
      match DeviceCodeEndpoint.retry_iteration (wk_random_tape t) DEVICE_PAIRING_CODE_KEY json_dumps
                            (wk_self t) response_data w with
      | (Returned (true, response_data'), w') =>
          resume t (Finished (Returned response_data')) w'
      | (Returned (false, response_data'), w') =>
          resume t (InLoop response_data') w'
      | (Raised e, w') => resume t (Finished (Raised e)) w'
      | (OutOfFuel, w') => resume t (Finished OutOfFuel) w'
      end
  | Finished _ => (t, c)
  end.

(** Worker [i] of the pool steps; a number that names no worker does
    nothing. *)
Fixpoint step_nth (i : nat) (pool : list worker) (c : C) : list worker * C :=
  match pool with
  | [] => ([], c)
  | t :: rest =>
      match i with
      | O => let '(t', c') := step t c in (t' :: rest, c')
      | S i' => let '(rest', c') := step_nth i' rest c in (t :: rest', c')
      end
  end.

Fixpoint run (schedule : list nat) (pool : list worker) (c : C) : list worker * C :=
  match schedule with
  | [] => (pool, c)
  | i :: schedule' =>
      let '(pool', c') := step_nth i pool c in run schedule' pool' c'
  end.

(** The code a finished worker returned to its caller. *)
Definition returned_code (t : worker) : option PyVal :=
  match wk_status t with
  | Finished (Returned response_data) => dict_get "code" response_data
  | _ => None
  end.

End Pool.

Definition finished (t : worker) : bool :=
  match wk_status t with
  | Finished _ => true
  | _ => false
  end.

End Concurrent.

(** ** Concrete collaborators for running the endpoint *)

Module Sample.

(** A key template, [pairing.code:{pairing_code}]. *)
Definition key (c : string) : string := "pairing.code:" +:+ c.

Definition quote : ascii := ascii_of_nat 34.

Fixpoint json_escape (s : string) : string :=
  match s with
  | EmptyString => EmptyString
  | String c s' =>
      if Ascii.eqb c quote then String "\"%char (String c (json_escape s'))
      else if Ascii.eqb c "\"%char then String "\"%char (String c (json_escape s'))
      else String c (json_escape s')
  end.

Definition json_value (v : PyVal) : string :=
  match v with
  | PyStr s => String quote (json_escape s) +:+ String quote EmptyString
  | PyInt z => pretty z
  end.

Fixpoint json_items (d : PyDict) : string :=
  match d with
  | [] => EmptyString
  | [(k, v)] => json_value (PyStr k) +:+ ": " +:+ json_value v
  | (k, v) :: d' => json_value (PyStr k) +:+ ": " +:+ json_value v +:+ ", " +:+ json_items d'
  end.

(** [json.dumps] on a dict whose strings are printable ASCII. *)
Definition json_dumps (d : PyDict) : string := "{" +:+ json_items d +:+ "}".

(** Every read of [os.urandom(16)] gives the same sixteen bytes. *)
Definition urandom_tape (_ : nat) : Z := 0x0123456789abcdef0123456789abcdef.

(** Draws 0, 1, 2, ... *)
Definition counting_tape (n : nat) : nat := n.

Definition endpoint (state : string) (packaging : option string) : Self :=
  {| request :=
       {| args := match packaging with
                  | Some p => <["packaging" := p]> {["state" := state]}
                  | None => {["state" := state]}
                  end |} |}.

Definition endpoint_without_state : Self :=
  {| request := {| args := {["packaging" := "ovos-core"]} |} |}.

Definition empty_world : World Store := mkWorld [] 0%nat 0%nat [].

(** Two workers whose generators give the same results, so that they draw
    the same code. *)
Definition colliding_pool : list Concurrent.worker :=
  [Concurrent.spawn (endpoint "first" None) urandom_tape counting_tape;
   Concurrent.spawn (endpoint "second" None) urandom_tape counting_tape].

(** The pool and the store after the workers stepped as [schedule] says. *)
Definition collide (schedule : list nat) : list Concurrent.worker * Store :=
  Concurrent.run key json_dumps schedule colliding_pool [].

(** One schedule for each state that the colliding pool can be in. *)
Definition collide_states : list (list nat) :=
  [ []; [0]; [1]; [0; 1]; [0; 0]; [1; 1]; [0; 0; 1]; [1; 1; 0];
    [0; 0; 1; 1]; [1; 1; 0; 0] ]%nat.

Definition mock_world (n : nat) : World MockCache :=
  mkWorld {| rejections := n |} 0%nat 0%nat [].

End Sample.

(** ** Vocabulary of the statements *)

(** All characters of [s] are characters of [alphabet]. *)
Definition over (alphabet s : string) : Prop :=
  Forall (fun c => In c (String.list_ascii_of_string alphabet))
         (String.list_ascii_of_string s).

(** [s] has [n] characters, and its [i]-th character is the character of [seq]
    that the [i]-th draw from position [p] of the tape selects: each position
    is drawn on its own, from the whole of [seq]. *)
Definition sampled (random_tape : nat -> nat) (n : nat) (seq : string) (p : nat)
    (s : string) : Prop :=
  String.length s = n /\
  forall i, (i < n)%nat ->
    String.get i s = String.get (random_tape (p + i)%nat `mod` String.length seq)%nat seq.

(** The token made from the [os.urandom(16)] result [r]. *)
Definition token_of (r : Z) : string :=
  SHA512.hexdigest (Bytes.of_str (UUID.str (UUID.set_version4 (r mod 2 ^ 128)))).

(** The dict that [_add_pairing_code_to_cache] serialises for [response_data]. *)
Definition cache_value (self : Self) (response_data : PyDict) : PyDict :=
  match args_get self "packaging" with
  | Some p => dict_update "packaging_type" (PyStr p) response_data
  | None => response_data
  end.

(** The keys of the set-attempts among some events, in order. *)
Fixpoint set_keys (evs : list event) : list string :=
  match evs with
  | [] => []
  | CacheSet key _ _ _ :: evs' => key :: set_keys evs'
  | LogDebug _ :: evs' => set_keys evs'
  end.

(** The time-to-live of every set-attempt among some events is [ttl]. *)
Definition sets_expire (ttl : Z) (evs : list event) : Prop :=
  Forall (fun e => match e with
                   | CacheSet _ _ expiration _ => expiration = ttl
                   | LogDebug _ => True
                   end) evs.

(** Every set-attempt among some events writes the serialisation of a dict
    that satisfies [P]. *)
Definition sets_write (json_dumps : PyDict -> string) (P : PyDict -> Prop)
    (evs : list event) : Prop :=
  Forall (fun e => match e with
                   | CacheSet _ value _ _ => exists d, value = json_dumps d /\ P d
                   | LogDebug _ => True
                   end) evs.

(** A set-attempt of the request [self], whose dict before the loop was
    [response_data]: the key and the value are made from one sampled code, and
    the time-to-live is a day. *)
Definition attempt (random_tape : nat -> nat)
    (DEVICE_PAIRING_CODE_KEY : string -> string) (json_dumps : PyDict -> string)
    (self : Self) (response_data : PyDict) (e : event) : Prop :=
  match e with
  | LogDebug _ => True
  | CacheSet key value expiration _ =>
      exists p code,
        sampled random_tape 6 ALLOWED_CHARACTERS p code /\
        key = DEVICE_PAIRING_CODE_KEY code /\
        value = json_dumps
                  (cache_value self (dict_update "code" (PyStr code) response_data)) /\
        expiration = ONE_DAY
  end.

(** The world after a set-attempt with a day to live, and its answer. *)
Definition after_set `{Cache C} (key value : string) (w : World C) : bool * World C :=
  let '(added, c) := set_if_not_exists_with_expiration key value ONE_DAY (cache w) in
  (added,
   mkWorld c (urandom_pos w) (random_pos w)
           (trace w ++ [CacheSet key value ONE_DAY added])).

(** The world after [_generate_pairing_code] returned [code]. *)
Definition after_code {C} (code : string) (w : World C) : World C :=
  mkWorld (cache w) (urandom_pos w) (random_pos w + 6)
          (trace w ++ [LogDebug ("Generated pairing code " +:+ code)]).

(** The dict that [_build_response] makes before its loop. *)
Definition initial_dict (state token : string) : PyDict :=
  [("state", PyStr state); ("token", PyStr token); ("expiration", PyInt ONE_DAY)].


(** ** Vocabulary of the further statements *)

(** The text that [n] draws from position [p] of the tape select in [seq],
    one character per draw. *)
Fixpoint drawn (random_tape : nat -> nat) (seq : string) (n p : nat) : string :=
  match n with
  | O => EmptyString
  | S n' =>
      match String.get (random_tape p `mod` String.length seq)%nat seq with
      | Some c => String c (drawn random_tape seq n' (S p))
      | None => EmptyString
      end
  end.

(** The pairing code that [_generate_pairing_code] makes when the cursor of
    the [random] module stands at [p]. *)
Definition pairing_code_at (random_tape : nat -> nat) (p : nat) : string :=
  drawn random_tape ALLOWED_CHARACTERS 6 p.

(** The first position of [c] in [s] (the length of [s] when there is none). *)
Fixpoint char_index (c : ascii) (s : string) : nat :=
  match s with
  | EmptyString => O
  | String c' s' => if Ascii.eqb c c' then O else S (char_index c s')
  end.

(** A tape whose first draws select the characters of [code] in [seq]. *)
Definition tape_for (seq code : string) (n : nat) : nat :=
  nth n ((fun c => char_index c seq) <$> String.list_ascii_of_string code) O.

(** The dict of a response. *)
Definition response_of (state token code : string) : PyDict :=
  [("state", PyStr state); ("token", PyStr token);
   ("expiration", PyInt ONE_DAY); ("code", PyStr code)].

(** The key that a worker which has not finished will try, if it comes to its
    set-attempt: the key of the code that its next six draws select. *)
Definition next_key (key : string -> string) (t : Concurrent.worker) : string :=
  key (pairing_code_at (Concurrent.wk_random_tape t) (Concurrent.wk_random_pos t)).

(** Two workers whose generators differ, so that they draw different codes. *)
Definition distinct_pool : list Concurrent.worker :=
  [Concurrent.spawn (Sample.endpoint "first" None)
                    Sample.urandom_tape Sample.counting_tape;
   Concurrent.spawn (Sample.endpoint "second" (Some "ovos-core"))
                    Sample.urandom_tape S].

(** A worker [t] that was given the key [k], against the store [c]: while it
    has not finished, it has a state, [k] is the key it will try and [k] is
    free; once finished, it has returned a response with a code. *)
Definition on_course (key : string -> string) (c : Store) (t : Concurrent.worker)
    (k : string) : Prop :=
  match Concurrent.wk_status t with
  | Concurrent.AtStart =>
      is_Some (args_get (Concurrent.wk_self t) "state") /\
      next_key key t = k /\ store_get k c = None
  | Concurrent.InLoop _ => next_key key t = k /\ store_get k c = None
  | Concurrent.Finished (Returned response) => is_Some (dict_get "code" response)
  | Concurrent.Finished _ => False
  end.

(** * Facts *)

(** ** Strings and dicts *)


Lemma string_get_lt (s : string) (i : nat) :
  (i < String.length s)%nat -> exists c, String.get i s = Some c.
Proof.
  revert i. induction s as [|a s IH]; intros i Hi; simpl in *; [lia|].
  destruct i as [|i]; [by exists a|]. apply IH. lia.
Qed.

Lemma string_get_In (s : string) (i : nat) (c : ascii) :
  String.get i s = Some c -> In c (String.list_ascii_of_string s).
Proof.
  revert i. induction s as [|a s IH]; intros i Hg; simpl in *; [done|].
  destruct i as [|i]; [left; congruence|right; eauto].
Qed.

Lemma dict_get_update_eq (k : string) (v : PyVal) (d : PyDict) :
  dict_get k (dict_update k v d) = Some v.
Proof.
  induction d as [|[k' v'] d IH]; simpl.
  - by rewrite String.eqb_refl.
  - destruct (String.eqb k k') eqn:E; simpl; rewrite E; [done|apply IH].
Qed.

Lemma dict_get_update_ne (k k' : string) (v : PyVal) (d : PyDict) :
  k <> k' -> dict_get k' (dict_update k v d) = dict_get k' d.
Proof.
  intros Hne. induction d as [|[k0 v0] d IH]; simpl.
  - destruct (String.eqb k' k) eqn:E; [|done].
    apply String.eqb_eq in E. congruence.
  - destruct (String.eqb k k0) eqn:E; simpl.
    + apply String.eqb_eq in E. subst k0.
      destruct (String.eqb k' k) eqn:E'; [|done].
      apply String.eqb_eq in E'. congruence.
    + by rewrite IH.
Qed.

Lemma dict_update_update (k : string) (v1 v2 : PyVal) (d : PyDict) :
  dict_update k v2 (dict_update k v1 d) = dict_update k v2 d.
Proof.
  induction d as [|[k' v'] d IH]; simpl.
  - by rewrite String.eqb_refl.
  - destruct (String.eqb k k') eqn:E; simpl; rewrite E; [done|by rewrite IH].
Qed.

(** ** The digest text *)

Lemma length_be_bytes (n : nat) (x : Z) : length (Bytes.be_bytes n x) = n.
Proof.
  revert x. induction n as [|n IH]; intros x; simpl; [done|].
  rewrite length_app, IH. simpl. lia.
Qed.

Lemma length_hex_of_bytes (bs : list Z) :
  String.length (Bytes.hex_of_bytes bs) = (2 * length bs)%nat.
Proof. induction bs as [|b bs IH]; simpl; [done|]. rewrite IH. lia. Qed.

Lemma hex_digit_lower (d : Z) :
  In (Bytes.hex_digit d) (String.list_ascii_of_string "0123456789abcdef").
Proof.
  unfold Bytes.hex_digit.
  destruct (String.get (Z.to_nat d) Bytes.hex_digits) as [c|] eqn:E; simpl.
  - by apply string_get_In in E.
  - by left.
Qed.

Lemma hex_of_bytes_lower (bs : list Z) :
  over "0123456789abcdef" (Bytes.hex_of_bytes bs).
Proof.
  unfold over. induction bs as [|b bs IH]; simpl; [constructor|].
  constructor; [apply hex_digit_lower|].
  constructor; [apply hex_digit_lower|apply IH].
Qed.

Lemma length_digest (msg : list Z) : length (SHA512.digest msg) = 64%nat.
Proof.
  unfold SHA512.digest. cbn [flat_map].
  rewrite !length_app, !length_be_bytes. reflexivity.
Qed.

Lemma length_hexdigest (msg : list Z) :
  String.length (SHA512.hexdigest msg) = 128%nat.
Proof. unfold SHA512.hexdigest. by rewrite length_hex_of_bytes, length_digest. Qed.

Example sha512_abc :
  SHA512.hexdigest (Bytes.of_str "abc") =
  "ddaf35a193617abacc417349ae20413112e6fa4e89a97ea20a9eeee64b55d39a" +:+
  "2192992a274fc1a836ba3c23a3feebbd454d4423643ce80e2a9ac94fa54ca49f".
Proof. vm_compute. reflexivity. Qed.

Example sha512_empty :
  SHA512.hexdigest [] =
  "cf83e1357eefb8bdf1542850d66d8007d620e4050b5715dc83f4a921d36ce9ce" +:+
  "47d0d13c5d85f2b0ff8318d2877eec2f63b931bd47417a81a538327af927da3e".
Proof. vm_compute. reflexivity. Qed.

(** 112 bytes: the padding spills into a second block. *)
Example sha512_two_blocks :
  SHA512.hexdigest (repeat 121 112) =
  "8a9b4960b8ba283f3ff4ae7c0cd9da8c12a9520701122630a9f903be075c1904" +:+
  "7ec85743ac93b91af5d9b3d428764f19e712f52232d3205a5e8b6d0c04aecd3e".
Proof. vm_compute. reflexivity. Qed.

Example uuid4_str :
  UUID.str (UUID.set_version4 0x0123456789abcdef0123456789abcdef) =
  "01234567-89ab-4def-8123-456789abcdef".
Proof. vm_compute. reflexivity. Qed.


(** ** What each method does to the world *)

Section Runs.

Context {C : Type} `{Cache C}.
Variable urandom_tape : nat -> Z.
Variable random_tape : nat -> nat.
Variable DEVICE_PAIRING_CODE_KEY : string -> string.
Variable json_dumps : PyDict -> string.

Local Abbreviation _generate_token :=
  (DeviceCodeEndpoint._generate_token (C := C) urandom_tape).
Local Abbreviation initial_response_data :=
  (DeviceCodeEndpoint.initial_response_data (C := C) urandom_tape).
Local Abbreviation join_choices :=
  (DeviceCodeEndpoint.join_choices (C := C) random_tape).
Local Abbreviation _generate_pairing_code :=
  (DeviceCodeEndpoint._generate_pairing_code (C := C) random_tape).
Local Abbreviation _add_pairing_code_to_cache :=
  (DeviceCodeEndpoint._add_pairing_code_to_cache DEVICE_PAIRING_CODE_KEY json_dumps).
Local Abbreviation retry_iteration :=
  (DeviceCodeEndpoint.retry_iteration random_tape DEVICE_PAIRING_CODE_KEY json_dumps).
Local Abbreviation retry_loop :=
  (DeviceCodeEndpoint.retry_loop random_tape DEVICE_PAIRING_CODE_KEY json_dumps).
Local Abbreviation _build_response :=
  (DeviceCodeEndpoint._build_response urandom_tape random_tape DEVICE_PAIRING_CODE_KEY json_dumps).

Local Abbreviation token_at w := (token_of (urandom_tape (urandom_pos w))).

Lemma generate_token_run (w : World C) :
  _generate_token w =
  (Returned (token_at w),
   mkWorld (cache w) (S (urandom_pos w)) (random_pos w) (trace w)).
Proof. reflexivity. Qed.

Lemma initial_response_data_run (self : Self) (w : World C) :
  initial_response_data self w =
  match args_get self "state" with
  | Some state =>
      (Returned [("state", PyStr state);
                 ("token", PyStr (token_at w));
                 ("expiration", PyInt ONE_DAY)],
       mkWorld (cache w) (S (urandom_pos w)) (random_pos w) (trace w))
  | None => (Raised (KeyError "state"), w)
  end.
Proof.
  unfold DeviceCodeEndpoint.initial_response_data, args_getitem, args_get, bind.
  destruct (args (request self) !! "state"); reflexivity.
Qed.

Lemma join_choices_run (n : nat) (seq : string) (w : World C) :
  seq <> EmptyString ->
  exists s,
    sampled random_tape n seq (random_pos w) s /\
    join_choices n seq w =
    (Returned s, mkWorld (cache w) (urandom_pos w) (random_pos w + n) (trace w)).
Proof.
  intros Hseq. revert w. induction n as [|n IH]; intros w.
  - exists EmptyString. split.
    + split; [done|]. intros i Hi. lia.
    + destruct w. simpl. unfold ret. do 2 f_equal. lia.
  - assert (Hlen : (0 < String.length seq)%nat) by (destruct seq; [done|simpl; lia]).
    destruct (string_get_lt seq (random_tape (random_pos w) `mod` String.length seq)%nat)
      as [c Hc]; [apply Nat.mod_upper_bound; lia|].
    destruct (IH (mkWorld (cache w) (urandom_pos w) (S (random_pos w)) (trace w)))
      as (s & [Hs1 Hs2] & Hrun).
    exists (String c s). split.
    + split; [simpl; congruence|].
      intros [|i] Hi; simpl.
      * by rewrite Nat.add_0_r.
      * rewrite (Hs2 i) by lia. simpl. do 3 f_equal. lia.
    + cbn [DeviceCodeEndpoint.join_choices]. unfold bind at 1.
      unfold DeviceCodeEndpoint.choice. destruct (String.length seq) eqn:El; [lia|].
      unfold bind at 1. unfold DeviceCodeEndpoint.randbelow at 1. cbn [fst snd].
      rewrite Hc. unfold ret at 1. unfold bind at 1.
      rewrite Hrun. unfold ret. simpl. do 2 f_equal. lia.
Qed.

Lemma allowed_characters_nonempty : ALLOWED_CHARACTERS <> EmptyString.
Proof. discriminate. Qed.

Lemma generate_pairing_code_run (w : World C) :
  exists code,
    sampled random_tape 6 ALLOWED_CHARACTERS (random_pos w) code /\
    _generate_pairing_code w =
    (Returned code, after_code code w).
Proof.
  destruct (join_choices_run 6 ALLOWED_CHARACTERS w allowed_characters_nonempty)
    as (code & Hcode & Hrun).
  exists code. split; [done|].
  unfold DeviceCodeEndpoint._generate_pairing_code, bind.
  rewrite Hrun. reflexivity.
Qed.

Lemma add_pairing_code_to_cache_run (self : Self) (response_data : PyDict)
    (code : string) (w : World C) :
  dict_get "code" response_data = Some (PyStr code) ->
  _add_pairing_code_to_cache self response_data w =
  let '(added, w') :=
    after_set (DEVICE_PAIRING_CODE_KEY code)
              (json_dumps (cache_value self response_data)) w in
  if added then (Returned true, w')
  else
    match dict_get "pairing_code" response_data with
    | Some v =>
        (Returned false,
         mkWorld (cache w') (urandom_pos w') (random_pos w')
                 (trace w' ++ [LogDebug ("Pairing code " +:+ py_str v +:+
                                         " exists, generating new code")]))
    | None => (Raised (KeyError "pairing_code"), w')
    end.
Proof.
  intros Hcode.
  unfold DeviceCodeEndpoint._add_pairing_code_to_cache, bind at 1, dict_getitem at 1.
  rewrite Hcode. unfold ret at 1. cbn [py_str].
  unfold bind at 1, cache_set_if_not_exists_with_expiration, after_set, cache_value.
  destruct (args_get self "packaging") as [p|];
    (destruct (set_if_not_exists_with_expiration _ _ _ (cache w)) as [[|] c];
     [reflexivity|];
     unfold bind, dict_getitem;
     destruct (dict_get "pairing_code" response_data); reflexivity).
Qed.

Lemma after_set_world (key value : string) (w : World C) :
  trace (after_set key value w).2 =
    trace w ++ [CacheSet key value ONE_DAY (after_set key value w).1] /\
  urandom_pos (after_set key value w).2 = urandom_pos w /\
  random_pos (after_set key value w).2 = random_pos w.
Proof.
  unfold after_set.
  by destruct (set_if_not_exists_with_expiration _ _ _ (cache w)) as [added c].
Qed.

Lemma retry_iteration_run (self : Self) (response_data : PyDict) (w : World C) :
  exists code,
    sampled random_tape 6 ALLOWED_CHARACTERS (random_pos w) code /\
    retry_iteration self response_data w =
    let response_data' := dict_update "code" (PyStr code) response_data in
    let '(added, w') :=
      after_set (DEVICE_PAIRING_CODE_KEY code)
                (json_dumps (cache_value self response_data')) (after_code code w) in
    if added then (Returned (true, response_data'), w')
    else
      match dict_get "pairing_code" response_data' with
      | Some v =>
          (Returned (false, response_data'),
           mkWorld (cache w') (urandom_pos w') (random_pos w')
                   (trace w' ++ [LogDebug ("Pairing code " +:+ py_str v +:+
                                           " exists, generating new code")]))
      | None => (Raised (KeyError "pairing_code"), w')
      end.
Proof.
  destruct (generate_pairing_code_run w) as (code & Hcode & Hrun).
  exists code. split; [done|].
  unfold DeviceCodeEndpoint.retry_iteration, bind at 1. rewrite Hrun.
  unfold bind at 1.
  rewrite (add_pairing_code_to_cache_run self _ code) by apply dict_get_update_eq.
  cbv zeta.
  destruct (after_set _ _ (after_code code w)) as [[|] w']; [reflexivity|].
  destruct (dict_get "pairing_code" _); reflexivity.
Qed.

Lemma attempt_update (self : Self) (response_data : PyDict) (v : PyVal) (e : event) :
  attempt random_tape DEVICE_PAIRING_CODE_KEY json_dumps self
          (dict_update "code" v response_data) e ->
  attempt random_tape DEVICE_PAIRING_CODE_KEY json_dumps self response_data e.
Proof.
  destruct e as [msg|key value expiration added]; [done|].
  intros (p & code & Hs & Hk & Hv & Ht). exists p, code.
  by rewrite dict_update_update in Hv.
Qed.

Lemma retry_loop_S (fuel : nat) (self : Self) (response_data : PyDict) (w : World C) :
  retry_loop (S fuel) self response_data w =
  match retry_iteration self response_data w with
  | (Returned (true, response_data'), w') => (Returned response_data', w')
  | (Returned (false, response_data'), w') => retry_loop fuel self response_data' w'
  | (Raised e, w') => (Raised e, w')
  | (OutOfFuel, w') => (OutOfFuel, w')
  end.
Proof.
  cbn [DeviceCodeEndpoint.retry_loop]. unfold bind.
  destruct (retry_iteration self response_data w) as [[[[|] rd']| |] w']; reflexivity.
Qed.

(** What holds of the loop however many times it goes round. *)
Lemma retry_loop_spec (fuel : nat) (self : Self) (response_data : PyDict)
    (w : World C) :
  exists evs,
    trace (retry_loop fuel self response_data w).2 = trace w ++ evs /\
    urandom_pos (retry_loop fuel self response_data w).2 = urandom_pos w /\
    Forall (attempt random_tape DEVICE_PAIRING_CODE_KEY json_dumps self response_data)
           evs /\
    match (retry_loop fuel self response_data w).1 with
    | Returned response =>
        exists p code evs0,
          sampled random_tape 6 ALLOWED_CHARACTERS p code /\
          response = dict_update "code" (PyStr code) response_data /\
          evs = evs0 ++ [CacheSet (DEVICE_PAIRING_CODE_KEY code)
                                  (json_dumps (cache_value self response))
                                  ONE_DAY true]
    | _ => True
    end.
Proof.
  revert response_data w. induction fuel as [|fuel IH]; intros response_data w.
  - exists []. simpl. by rewrite app_nil_r.
  - rewrite retry_loop_S.
    destruct (retry_iteration_run self response_data w) as (code & Hcode & ->).
    cbv zeta.
    pose proof (after_set_world
                  (DEVICE_PAIRING_CODE_KEY code)
                  (json_dumps (cache_value self
                                 (dict_update "code" (PyStr code) response_data)))
                  (after_code code w)) as (Ht & Hu & _).
    destruct (after_set _ _ (after_code code w)) as [added w']. cbn [fst snd] in *.
    assert (Hatt : attempt random_tape DEVICE_PAIRING_CODE_KEY json_dumps self
                           response_data
                           (CacheSet (DEVICE_PAIRING_CODE_KEY code)
                              (json_dumps (cache_value self
                                 (dict_update "code" (PyStr code) response_data)))
                              ONE_DAY added))
      by (exists (random_pos w), code; done).
    destruct added.
    + eexists. cbn [fst snd].
      split; [rewrite Ht; cbn [after_code trace]; by rewrite <- app_assoc|].
      split; [done|]. split; [by repeat constructor|].
      exists (random_pos w), code, [LogDebug ("Generated pairing code " +:+ code)].
      done.
    + destruct (dict_get "pairing_code" _) as [v|].
      * cbn [fst snd].
        destruct (IH (dict_update "code" (PyStr code) response_data)
                     (mkWorld (cache w') (urandom_pos w') (random_pos w')
                        (trace w' ++ [LogDebug ("Pairing code " +:+ py_str v +:+
                                                " exists, generating new code")])))
          as (evs & Htr & Hur & Hall & Hret).
        eexists. split; [rewrite Htr; cbn [trace]; rewrite Ht; cbn [after_code trace];
                         rewrite <- !app_assoc; reflexivity|].
        split; [by rewrite Hur|].
        split.
        { simpl. repeat constructor; [done|].
          eapply Forall_impl; [exact Hall|]. intros e. apply attempt_update. }
        destruct (retry_loop fuel self _ _).1 as [response| |]; [|done..].
        destruct Hret as (p & code' & evs0 & Hs & -> & ->).
        exists p, code', ([LogDebug ("Generated pairing code " +:+ code);
                           CacheSet (DEVICE_PAIRING_CODE_KEY code)
                             (json_dumps (cache_value self
                                (dict_update "code" (PyStr code) response_data)))
                             ONE_DAY false;
                           LogDebug ("Pairing code " +:+ py_str v +:+
                                     " exists, generating new code")] ++ evs0).
        rewrite dict_update_update. done.
      * eexists. cbn [fst snd].
        split; [rewrite Ht; cbn [after_code trace]; by rewrite <- app_assoc|].
        split; [done|]. split; [by repeat constructor|done].
Qed.

Lemma build_response_unfold (fuel : nat) (self : Self) (w : World C) :
  _build_response fuel self w =
  match args_get self "state" with
  | Some state =>
      retry_loop fuel self (initial_dict state (token_at w))
                 (mkWorld (cache w) (S (urandom_pos w)) (random_pos w) (trace w))
  | None => (Raised (KeyError "state"), w)
  end.
Proof.
  unfold DeviceCodeEndpoint._build_response, bind.
  rewrite initial_response_data_run.
  destruct (args_get self "state"); reflexivity.
Qed.

(** What holds of [_build_response] whatever the fuel. *)
Lemma build_response_spec (fuel : nat) (self : Self) (w : World C) (state : string) :
  args_get self "state" = Some state ->
  exists evs,
    trace (_build_response fuel self w).2 = trace w ++ evs /\
    urandom_pos (_build_response fuel self w).2 = S (urandom_pos w) /\
    Forall (attempt random_tape DEVICE_PAIRING_CODE_KEY json_dumps self
                    (initial_dict state (token_at w))) evs /\
    match (_build_response fuel self w).1 with
    | Returned response =>
        exists p code evs0,
          sampled random_tape 6 ALLOWED_CHARACTERS p code /\
          response = initial_dict state (token_at w) ++ [("code", PyStr code)] /\
          evs = evs0 ++ [CacheSet (DEVICE_PAIRING_CODE_KEY code)
                                  (json_dumps (cache_value self response))
                                  ONE_DAY true]
    | _ => True
    end.
Proof.
  intros Hstate. rewrite build_response_unfold, Hstate.
  destruct (retry_loop_spec fuel self (initial_dict state (token_at w))
              (mkWorld (cache w) (S (urandom_pos w)) (random_pos w) (trace w)))
    as (evs & Htr & Hur & Hall & Hret).
  exists evs. repeat split; done.
Qed.

(** With a dict that has no ["pairing_code"] key, the loop makes one
    set-attempt: it returns when the code was added and raises when it was
    not. *)
Lemma retry_loop_once (fuel : nat) (self : Self) (response_data : PyDict)
    (w : World C) :
  dict_get "pairing_code" response_data = None ->
  exists code,
    sampled random_tape 6 ALLOWED_CHARACTERS (random_pos w) code /\
    retry_loop (S fuel) self response_data w =
    let response_data' := dict_update "code" (PyStr code) response_data in
    let '(added, w') :=
      after_set (DEVICE_PAIRING_CODE_KEY code)
                (json_dumps (cache_value self response_data')) (after_code code w) in
    if added then (Returned response_data', w')
    else (Raised (KeyError "pairing_code"), w').
Proof.
  intros Hnone.
  destruct (retry_iteration_run self response_data w) as (code & Hcode & Hrun).
  exists code. split; [done|].
  rewrite retry_loop_S, Hrun. cbv zeta.
  destruct (after_set _ _ (after_code code w)) as [[|] w']; [reflexivity|].
  by rewrite dict_get_update_ne, Hnone.
Qed.

Lemma build_response_once (fuel : nat) (self : Self) (w : World C) (state : string) :
  args_get self "state" = Some state ->
  exists code,
    sampled random_tape 6 ALLOWED_CHARACTERS (random_pos w) code /\
    _build_response (S fuel) self w =
    let response := initial_dict state (token_at w) ++ [("code", PyStr code)] in
    let '(added, w') :=
      after_set (DEVICE_PAIRING_CODE_KEY code)
                (json_dumps (cache_value self response))
                (after_code code
                   (mkWorld (cache w) (S (urandom_pos w)) (random_pos w) (trace w))) in
    if added then (Returned response, w')
    else (Raised (KeyError "pairing_code"), w').
Proof.
  intros Hstate. rewrite build_response_unfold, Hstate.
  destruct (retry_loop_once fuel self (initial_dict state (token_at w))
              (mkWorld (cache w) (S (urandom_pos w)) (random_pos w) (trace w)))
    as (code & Hcode & Hrun); [reflexivity|].
  exists code. split; [exact Hcode|exact Hrun].
Qed.

Lemma sampled_over (n : nat) (seq : string) (p : nat) (s : string) :
  seq <> EmptyString -> sampled random_tape n seq p s -> over seq s.
Proof.
  intros Hseq [Hlen Hget].
  assert (Hpos : (0 < String.length seq)%nat) by (destruct seq; [done|simpl; lia]).
  assert (Hall : forall i, (i < String.length s)%nat ->
                   exists c, String.get i s = Some c /\
                             In c (String.list_ascii_of_string seq)).
  { intros i Hi. destruct (string_get_lt s i Hi) as [c Hc]. exists c. split; [done|].
    rewrite Hget in Hc by lia. by apply string_get_In in Hc. }
  clear Hlen Hget. unfold over. induction s as [|a s IH]; simpl; [constructor|].
  constructor.
  - destruct (Hall 0%nat) as (c & Hc & Hin); [simpl; lia|]. simpl in Hc. congruence.
  - apply IH. intros i Hi. apply (Hall (S i)). simpl. lia.
Qed.

Lemma cache_value_get (self : Self) (d : PyDict) (k : string) :
  k <> "packaging_type" -> dict_get k (cache_value self d) = dict_get k d.
Proof.
  intros Hk. unfold cache_value.
  destruct (args_get self "packaging"); [|done].
  by apply dict_get_update_ne.
Qed.

Lemma cache_value_packaging_type (self : Self) (d : PyDict) :
  dict_get "packaging_type" d = None ->
  dict_get "packaging_type" (cache_value self d) = PyStr <$> args_get self "packaging".
Proof.
  intros Hd. unfold cache_value.
  destruct (args_get self "packaging"); [apply dict_get_update_eq|done].
Qed.

(** Turning what is known of every attempt into what is known of every
    value written. *)
Lemma attempts_write (self : Self) (response_data : PyDict) (P : PyDict -> Prop)
    (evs : list event) :
  (forall code,
      P (cache_value self (dict_update "code" (PyStr code) response_data))) ->
  Forall (attempt random_tape DEVICE_PAIRING_CODE_KEY json_dumps self response_data)
         evs ->
  sets_write json_dumps P evs.
Proof.
  intros HP Hall. unfold sets_write. eapply Forall_impl; [exact Hall|].
  intros [msg|key value expiration added]; [done|].
  intros (p & code & _ & _ & -> & _). eexists. split; [reflexivity|apply HP].
Qed.

Lemma attempts_expire (self : Self) (response_data : PyDict) (evs : list event) :
  Forall (attempt random_tape DEVICE_PAIRING_CODE_KEY json_dumps self response_data)
         evs ->
  sets_expire ONE_DAY evs.
Proof.
  intros Hall. unfold sets_expire. eapply Forall_impl; [exact Hall|].
  intros [msg|key value expiration added]; [done|].
  by intros (p & code & _ & _ & _ & ->).
Qed.

(** C2: when the request has a state, one [os.urandom] block is read during
    the whole call, and it is read by the statement before the loop, so the
    token is made once; every value written to the cache, at whichever
    iteration, carries that token, and so does the response. *)
Theorem token_generated_once (fuel : nat) (self : Self) (w : World C)
    (state : string) :
  args_get self "state" = Some state ->
  let token := token_of (urandom_tape (urandom_pos w)) in
  urandom_pos (initial_response_data self w).2 = S (urandom_pos w) /\
  urandom_pos (_build_response fuel self w).2 = S (urandom_pos w) /\
  (exists evs,
      trace (_build_response fuel self w).2 = trace w ++ evs /\
      sets_write json_dumps (fun d => dict_get "token" d = Some (PyStr token)) evs) /\
  match (_build_response fuel self w).1 with
  | Returned response => dict_get "token" response = Some (PyStr token)
  | _ => True
  end.
Proof.
  intros Hstate token.
  destruct (build_response_spec fuel self w state Hstate)
    as (evs & Htr & Hur & Hall & Hret).
  split; [by rewrite initial_response_data_run, Hstate|].
  split; [done|]. split.
  - exists evs. split; [done|].
    eapply attempts_write; [|exact Hall].
    intros code. rewrite cache_value_get by done.
    by rewrite dict_get_update_ne by done.
  - destruct (_build_response fuel self w).1 as [response| |]; [|done..].
    by destruct Hret as (p & code & evs0 & _ & -> & _).
Qed.

(** C3: a returned code has six characters, all of them from
    ACEFHJKLMNPRTUVWXY3479, and each is the character that its own draw
    selects among the 22. *)
Theorem code_is_six_allowed_characters (fuel : nat) (self : Self) (w : World C) :
  match (_build_response fuel self w).1 with
  | Returned response =>
      exists code p,
        dict_get "code" response = Some (PyStr code) /\
        String.length code = 6%nat /\
        over "ACEFHJKLMNPRTUVWXY3479" code /\
        forall i, (i < 6)%nat ->
          String.get i code =
          String.get (random_tape (p + i)%nat `mod` 22)%nat "ACEFHJKLMNPRTUVWXY3479"
  | _ => True
  end.
Proof.
  rewrite build_response_unfold.
  destruct (args_get self "state") as [state|]; [|done].
  destruct (retry_loop_spec fuel self (initial_dict state (token_at w))
              (mkWorld (cache w) (S (urandom_pos w)) (random_pos w) (trace w)))
    as (evs & _ & _ & _ & Hret).
  destruct (retry_loop _ _ _ _).1 as [response| |]; [|done..].
  destruct Hret as (p & code & evs0 & Hs & -> & _).
  exists code, p. split; [apply dict_get_update_eq|].
  split; [apply Hs|]. split.
  - eapply (sampled_over 6 ALLOWED_CHARACTERS); [discriminate|exact Hs].
  - apply Hs.
Qed.

(** C4: a returned token is the SHA-512 hex digest of the text of the UUID
    made from the block of [os.urandom] read by this call: 128 characters,
    all of them among 0123456789abcdef. *)
Theorem token_is_sha512_hex (fuel : nat) (self : Self) (w : World C) :
  match (_build_response fuel self w).1 with
  | Returned response =>
      exists token,
        dict_get "token" response = Some (PyStr token) /\
        String.length token = 128%nat /\
        over "0123456789abcdef" token /\
        token = SHA512.hexdigest
                  (Bytes.of_str
                     (UUID.str
                        (UUID.set_version4
                           (urandom_tape (urandom_pos w) mod 2 ^ 128)))) /\
        urandom_pos (_build_response fuel self w).2 = S (urandom_pos w)
  | _ => True
  end.
Proof.
  destruct (args_get self "state") as [state|] eqn:Hstate.
  - destruct (build_response_spec fuel self w state Hstate)
      as (evs & _ & Hur & _ & Hret).
    destruct (_build_response fuel self w).1 as [response| |]; [|done..].
    destruct Hret as (p & code & evs0 & _ & -> & _).
    exists (token_at w).
    split; [reflexivity|]. split; [apply length_hexdigest|].
    split; [apply hex_of_bytes_lower|]. split; [reflexivity|exact Hur].
  - rewrite build_response_unfold, Hstate. done.
Qed.

(** C6: the set-attempts of one call have pairwise distinct keys; there is
    at most one of them, since the loop is left, by return or by exception,
    after its first attempt. *)
Theorem set_attempts_have_distinct_keys (fuel : nat) (self : Self) (w : World C) :
  exists evs,
    trace (_build_response fuel self w).2 = trace w ++ evs /\
    NoDup (set_keys evs) /\
    (length (set_keys evs) <= 1)%nat.
Proof.
  destruct (args_get self "state") as [state|] eqn:Hstate.
  - destruct fuel as [|fuel].
    + rewrite build_response_unfold, Hstate. exists []. simpl.
      rewrite app_nil_r. split; [done|]. split; [constructor|lia].
    + destruct (build_response_once fuel self w state Hstate)
        as (code & _ & ->). cbv zeta.
      match goal with
      | |- context [after_set ?k ?v ?w0] =>
          pose proof (after_set_world k v w0) as (Ht & _ & _);
          destruct (after_set k v w0) as [added w']
      end.
      cbn [fst snd after_code trace] in Ht.
      exists [LogDebug ("Generated pairing code " +:+ code);
              CacheSet (DEVICE_PAIRING_CODE_KEY code)
                (json_dumps (cache_value self
                   (initial_dict state (token_at w) ++ [("code", PyStr code)])))
                ONE_DAY added].
      split.
      * destruct added; cbn [snd]; rewrite Ht, <- app_assoc; reflexivity.
      * simpl. split; [apply NoDup_singleton|lia].
  - rewrite build_response_unfold, Hstate. exists []. simpl.
    rewrite app_nil_r. split; [done|]. split; [constructor|lia].
Qed.

(** C7: every value written to the cache is the serialisation of a dict
    whose ["packaging_type"] is the "packaging" argument when there is one
    and is missing when there is none, and whose ["state"] is the "state"
    argument. *)
Theorem packaging_type_stored_iff_supplied (fuel : nat) (self : Self) (w : World C) :
  exists evs,
    trace (_build_response fuel self w).2 = trace w ++ evs /\
    sets_write json_dumps
      (fun d =>
         dict_get "packaging_type" d = PyStr <$> args_get self "packaging" /\
         dict_get "state" d = PyStr <$> args_get self "state")
      evs.
Proof.
  destruct (args_get self "state") as [state|] eqn:Hstate.
  - destruct (build_response_spec fuel self w state Hstate)
      as (evs & Htr & _ & Hall & _).
    exists evs. split; [done|].
    eapply attempts_write; [|exact Hall].
    intros code. split.
    + apply cache_value_packaging_type. by rewrite dict_get_update_ne.
    + rewrite cache_value_get by done. by rewrite dict_get_update_ne.
  - rewrite build_response_unfold, Hstate. exists []. simpl.
    rewrite app_nil_r. split; [done|constructor].
Qed.

(** C8: the time-to-live of every set-attempt is 86400, and so is the
    ["expiration"] of a returned response. *)
Theorem expiration_is_one_day (fuel : nat) (self : Self) (w : World C) :
  (exists evs,
      trace (_build_response fuel self w).2 = trace w ++ evs /\
      sets_expire 86400 evs) /\
  match (_build_response fuel self w).1 with
  | Returned response => dict_get "expiration" response = Some (PyInt 86400)
  | _ => True
  end.
Proof.
  destruct (args_get self "state") as [state|] eqn:Hstate.
  - destruct (build_response_spec fuel self w state Hstate)
      as (evs & Htr & _ & Hall & Hret).
    split.
    + exists evs. split; [done|]. by eapply attempts_expire.
    + destruct (_build_response fuel self w).1 as [response| |]; [|done..].
      by destruct Hret as (p & code & evs0 & _ & -> & _).
  - rewrite build_response_unfold, Hstate. split; [|done].
    exists []. simpl. rewrite app_nil_r. split; [done|constructor].
Qed.

(** C9: without a "state" argument the call raises [KeyError] and leaves
    the world as it was: no entropy read, nothing logged, no cache call. *)
Theorem missing_state_raises (fuel : nat) (self : Self) (w : World C) :
  args_get self "state" = None ->
  _build_response fuel self w = (Raised (KeyError "state"), w) /\
  DeviceCodeEndpoint.get urandom_tape random_tape DEVICE_PAIRING_CODE_KEY json_dumps
    fuel self w = (Raised (KeyError "state"), w).
Proof.
  intros Hstate. unfold DeviceCodeEndpoint.get, bind.
  rewrite build_response_unfold, Hstate. done.
Qed.

(** C10: when the call returns, its last act was the successful set of the
    key made from the returned code, with a day to live and with a value
    that serialises a dict whose state, token, expiration and code are those
    of the response; the keys of the response are state, token, expiration
    and code, in this order. *)
Theorem cache_entry_matches_response (fuel : nat) (self : Self) (w : World C) :
  match (_build_response fuel self w).1 with
  | Returned response =>
      dict_keys response = ["state"; "token"; "expiration"; "code"] /\
      exists code evs d,
        dict_get "code" response = Some (PyStr code) /\
        trace (_build_response fuel self w).2 =
          trace w ++ evs ++ [CacheSet (DEVICE_PAIRING_CODE_KEY code) (json_dumps d)
                                      ONE_DAY true] /\
        dict_get "state" d = dict_get "state" response /\
        dict_get "token" d = dict_get "token" response /\
        dict_get "expiration" d = dict_get "expiration" response /\
        dict_get "code" d = dict_get "code" response /\
        dict_get "packaging_type" d = PyStr <$> args_get self "packaging"
  | _ => True
  end.
Proof.
  destruct (args_get self "state") as [state|] eqn:Hstate.
  - destruct (build_response_spec fuel self w state Hstate)
      as (evs & Htr & _ & _ & Hret).
    destruct (_build_response fuel self w).1 as [response| |]; [|done..].
    destruct Hret as (p & code & evs0 & _ & -> & ->).
    split; [reflexivity|].
    exists code, evs0, (cache_value self (initial_dict state (token_at w) ++ [("code", PyStr code)])).
    split; [reflexivity|]. split; [exact Htr|].
    rewrite !cache_value_get by done.
    repeat (split; [reflexivity|]).
    by apply cache_value_packaging_type.
  - rewrite build_response_unfold, Hstate. done.
Qed.

(** Fuel for one iteration is fuel enough: the call returns or raises. *)
Lemma build_response_terminates (fuel : nat) (self : Self) (w : World C) :
  (_build_response (S fuel) self w).1 <> OutOfFuel.
Proof.
  destruct (args_get self "state") as [state|] eqn:Hstate.
  - destruct (build_response_once fuel self w state Hstate) as (code & _ & ->).
    cbv zeta. by destruct (after_set _ _ _) as [[|] w'].
  - by rewrite build_response_unfold, Hstate.
Qed.

(** An accepted first set-attempt ends the call with a response. *)
Lemma build_response_accepted (fuel : nat) (self : Self) (w : World C)
    (state : string) :
  args_get self "state" = Some state ->
  (forall key value,
      (set_if_not_exists_with_expiration key value ONE_DAY (cache w)).1 = true) ->
  exists code,
    sampled random_tape 6 ALLOWED_CHARACTERS (random_pos w) code /\
    (_build_response (S fuel) self w).1 =
    Returned (initial_dict state (token_at w) ++ [("code", PyStr code)]).
Proof.
  intros Hstate Hacc.
  destruct (build_response_once fuel self w state Hstate) as (code & Hcode & ->).
  exists code. split; [exact Hcode|].
  cbv zeta. unfold after_set. cbn [after_code cache].
  match goal with
  | |- context [set_if_not_exists_with_expiration ?k ?v ONE_DAY (cache w)] =>
      specialize (Hacc k v);
      destruct (set_if_not_exists_with_expiration k v ONE_DAY (cache w)) as [added c]
  end.
  cbn [fst] in Hacc. by subst added.
Qed.

(** A rejected first set-attempt ends the call with [KeyError]. *)
Lemma build_response_rejected (fuel : nat) (self : Self) (w : World C)
    (state : string) :
  args_get self "state" = Some state ->
  (forall key value,
      (set_if_not_exists_with_expiration key value ONE_DAY (cache w)).1 = false) ->
  (_build_response (S fuel) self w).1 = Raised (KeyError "pairing_code").
Proof.
  intros Hstate Hrej.
  destruct (build_response_once fuel self w state Hstate) as (code & _ & ->).
  cbv zeta. unfold after_set. cbn [after_code cache].
  match goal with
  | |- context [set_if_not_exists_with_expiration ?k ?v ONE_DAY (cache w)] =>
      specialize (Hrej k v);
      destruct (set_if_not_exists_with_expiration k v ONE_DAY (cache w)) as [added c]
  end.
  cbn [fst] in Hrej. by subst added.
Qed.

End Runs.


(** ** Runs on concrete requests *)

Example issue_without_packaging :
  DeviceCodeEndpoint.get Sample.urandom_tape Sample.counting_tape Sample.key
    Sample.json_dumps 1 (Sample.endpoint "abc123" None) Sample.empty_world =
  let token := token_of (Sample.urandom_tape 0) in
  let response := initial_dict "abc123" token ++ [("code", PyStr "ACEFHJ")] in
  let value := Sample.json_dumps response in
  ((Returned (response, 200)),
   mkWorld [("pairing.code:ACEFHJ", (value, 86400))] 1%nat 6%nat
           [LogDebug "Generated pairing code ACEFHJ";
            CacheSet "pairing.code:ACEFHJ" value 86400 true]).
Proof. vm_compute. reflexivity. Qed.

Example issue_with_packaging :
  DeviceCodeEndpoint.get Sample.urandom_tape Sample.counting_tape Sample.key
    Sample.json_dumps 1 (Sample.endpoint "abc123" (Some "ovos-core")) Sample.empty_world =
  let token := token_of (Sample.urandom_tape 0) in
  let response := initial_dict "abc123" token ++ [("code", PyStr "ACEFHJ")] in
  let value := Sample.json_dumps (response ++ [("packaging_type", PyStr "ovos-core")]) in
  ((Returned (response, 200)),
   mkWorld [("pairing.code:ACEFHJ", (value, 86400))] 1%nat 6%nat
           [LogDebug "Generated pairing code ACEFHJ";
            CacheSet "pairing.code:ACEFHJ" value 86400 true]).
Proof. vm_compute. reflexivity. Qed.

Example sample_token :
  token_of (Sample.urandom_tape 0) =
  "7808ea8e38072ff1dfc6cefc8ee5bfd7c811f4210e4bd46d6aa275039f21f807" +:+
  "dc151a72b9711ec606374885a1964806b53b5bd63038048b2a0c9b028befe51c".
Proof. vm_compute. reflexivity. Qed.

(** C1: against a cache that rejects the first set-attempts (one or more of
    them), the call does not retry: it raises [KeyError] for the key
    ["pairing_code"], which the dict does not have, while it formats the
    message of the collision. *)
Theorem issue_raises_on_collision (n fuel : nat) :
  (DeviceCodeEndpoint._build_response Sample.urandom_tape Sample.counting_tape
     Sample.key Sample.json_dumps (S fuel) (Sample.endpoint "abc123" None)
     (Sample.mock_world (S n))).1 =
  Raised (KeyError "pairing_code").
Proof. by apply (build_response_rejected _ _ _ _ fuel _ _ "abc123"). Qed.

(** The world after such a call: one code drawn, one rejected set-attempt, no
    line logged for the collision. *)
Example issue_on_collision_world :
  (DeviceCodeEndpoint._build_response Sample.urandom_tape Sample.counting_tape
     Sample.key Sample.json_dumps 5 (Sample.endpoint "abc123" None)
     (Sample.mock_world 2)).2 =
  mkWorld {| rejections := 1 |} 1%nat 6%nat
    [LogDebug "Generated pairing code ACEFHJ";
     CacheSet "pairing.code:ACEFHJ"
       (Sample.json_dumps
          (initial_dict "abc123" (token_of (Sample.urandom_tape 0)) ++
           [("code", PyStr "ACEFHJ")]))
       86400 false].
Proof. vm_compute. reflexivity. Qed.

(** Two colliding workers stepping in turn, in both orders. *)
Example collision_in_turn :
  let response state :=
    initial_dict state (token_of (Sample.urandom_tape 0)) ++ [("code", PyStr "ACEFHJ")] in
  Concurrent.wk_status <$> (Sample.collide [0; 1; 0; 1]%nat).1 =
    [Concurrent.Finished (Returned (response "first"));
     Concurrent.Finished (Raised (KeyError "pairing_code"))] /\
  Concurrent.wk_status <$> (Sample.collide [0; 1; 1; 0]%nat).1 =
    [Concurrent.Finished (Raised (KeyError "pairing_code"));
     Concurrent.Finished (Returned (response "second"))].
Proof. vm_compute. split; reflexivity. Qed.

(** ** The store after a call *)

(** Against the store, a returned call has left the entry of its code: the
    value is the serialisation of the response (with the packaging type when
    there is one) and the time-to-live is a day. *)
Lemma store_holds_entry (urandom_tape : nat -> Z) (random_tape : nat -> nat)
    (key : string -> string) (json_dumps : PyDict -> string)
    (fuel : nat) (self : Self) (w : World Store) :
  let r := DeviceCodeEndpoint._build_response urandom_tape random_tape key json_dumps
             fuel self w in
  match r.1 with
  | Returned response =>
      exists code,
        dict_get "code" response = Some (PyStr code) /\
        store_get (key code) (cache r.2) =
          Some (json_dumps (cache_value self response), ONE_DAY)
  | _ => True
  end.
Proof.
  cbv zeta. destruct (args_get self "state") as [state|] eqn:Hstate.
  - destruct fuel as [|fuel].
    + by rewrite build_response_unfold, Hstate.
    + destruct (build_response_once urandom_tape random_tape key json_dumps
                  fuel self w state Hstate) as (code & _ & ->).
      cbv zeta. unfold after_set. cbn [after_code cache].
      unfold set_if_not_exists_with_expiration, StoreCache,
        store_set_if_not_exists_with_expiration.
      destruct (store_get (key code) (cache w)) eqn:Hget; [done|].
      cbn [fst snd cache]. exists code. split; [reflexivity|].
      cbn [store_get]. by rewrite String.eqb_refl.
  - by rewrite build_response_unfold, Hstate.
Qed.

(** ** The theorems with a premise, at a concrete request *)

Lemma token_generated_once_witness :
  let self := Sample.endpoint "abc123" (Some "ovos-core") in
  let r := DeviceCodeEndpoint._build_response Sample.urandom_tape Sample.counting_tape
             Sample.key Sample.json_dumps 1 self Sample.empty_world in
  let token := token_of (Sample.urandom_tape 0) in
  args_get self "state" = Some "abc123" /\
  urandom_pos
    (DeviceCodeEndpoint.initial_response_data Sample.urandom_tape self
       Sample.empty_world).2 = 1%nat /\
  urandom_pos r.2 = 1%nat /\
  (exists evs,
      trace r.2 = [] ++ evs /\
      sets_write Sample.json_dumps
                 (fun d => dict_get "token" d = Some (PyStr token)) evs) /\
  match r.1 with
  | Returned response => dict_get "token" response = Some (PyStr token)
  | _ => True
  end.
Proof.
  split; [reflexivity|].
  apply (token_generated_once Sample.urandom_tape Sample.counting_tape Sample.key
           Sample.json_dumps 1 (Sample.endpoint "abc123" (Some "ovos-core"))
           Sample.empty_world "abc123").
  reflexivity.
Defined.

Lemma missing_state_raises_witness :
  let self := Sample.endpoint_without_state in
  let w := Sample.mock_world 0 in
  args_get self "state" = None /\
  DeviceCodeEndpoint._build_response Sample.urandom_tape Sample.counting_tape
    Sample.key Sample.json_dumps 1 self w = (Raised (KeyError "state"), w) /\
  DeviceCodeEndpoint.get Sample.urandom_tape Sample.counting_tape
    Sample.key Sample.json_dumps 1 self w = (Raised (KeyError "state"), w).
Proof.
  split; [reflexivity|].
  apply (missing_state_raises Sample.urandom_tape Sample.counting_tape Sample.key
           Sample.json_dumps 1 Sample.endpoint_without_state (Sample.mock_world 0)).
  reflexivity.
Defined.


(** ** Every schedule of two colliding workers *)

Lemma step_nth_out_of_range `{Cache C} (key : string -> string)
    (json_dumps : PyDict -> string) (i : nat) (pool : list Concurrent.worker) (c : C) :
  (length pool <= i)%nat -> Concurrent.step_nth key json_dumps i pool c = (pool, c).
Proof.
  revert i. induction pool as [|t pool IH]; intros i Hi; [by destruct i|].
  destruct i as [|i]; simpl in *; [lia|].
  rewrite IH by lia. reflexivity.
Qed.

Lemma run_snoc `{Cache C} (key : string -> string) (json_dumps : PyDict -> string)
    (schedule : list nat) (i : nat) (pool : list Concurrent.worker) (c : C) :
  Concurrent.run key json_dumps (schedule ++ [i]) pool c =
  Concurrent.step_nth key json_dumps i
    (Concurrent.run key json_dumps schedule pool c).1
    (Concurrent.run key json_dumps schedule pool c).2.
Proof.
  revert pool c. induction schedule as [|j schedule IH]; intros pool c; simpl.
  - by destruct (Concurrent.step_nth key json_dumps i pool c).
  - destruct (Concurrent.step_nth key json_dumps j pool c) as [pool' c']. apply IH.
Qed.

Lemma length_step_nth `{Cache C} (key : string -> string)
    (json_dumps : PyDict -> string) (i : nat) (pool : list Concurrent.worker) (c : C) :
  length (Concurrent.step_nth key json_dumps i pool c).1 = length pool.
Proof.
  revert i. induction pool as [|t pool IH]; intros i; [by destruct i|].
  destruct i as [|i]; simpl.
  - by destruct (Concurrent.step _ _ t c).
  - specialize (IH i). destruct (Concurrent.step_nth key json_dumps i pool c).
    simpl in *. by rewrite IH.
Qed.

Lemma length_run `{Cache C} (key : string -> string) (json_dumps : PyDict -> string)
    (schedule : list nat) (pool : list Concurrent.worker) (c : C) :
  length (Concurrent.run key json_dumps schedule pool c).1 = length pool.
Proof.
  revert pool c. induction schedule as [|i schedule IH]; intros pool c; [done|].
  simpl. pose proof (length_step_nth key json_dumps i pool c) as Hl.
  destruct (Concurrent.step_nth key json_dumps i pool c) as [pool' c'].
  rewrite IH. exact Hl.
Qed.

(** Try the schedules of a list as representatives of the state reached. *)
Ltac pick_state states :=
  lazymatch states with
  | ?s :: ?rest =>
      first [ exists s; split;
              [ cbv [In Sample.collide_states]; repeat (first [left; reflexivity | right])
              | vm_compute; reflexivity ]
            | pick_state rest ]
  end.

(** A step from a state of the list leads to a state of the list. *)
Lemma collide_states_closed (s : list nat) (i : nat) :
  In s Sample.collide_states ->
  exists s', In s' Sample.collide_states /\ Sample.collide (s ++ [i]) = Sample.collide s'.
Proof.
  intros Hin.
  destruct (decide (i < 2)%nat) as [Hi|Hi].
  - assert (Hi' : i = 0%nat \/ i = 1%nat) by lia.
    unfold Sample.collide_states in Hin. simpl in Hin.
    destruct Hi' as [-> | ->];
      repeat (destruct Hin as [<- | Hin]); try (exfalso; exact Hin);
      let states := eval cbv in Sample.collide_states in pick_state states.
  - exists s. split; [done|].
    unfold Sample.collide. rewrite run_snoc.
    rewrite step_nth_out_of_range; [by destruct (Concurrent.run _ _ _ _ _)|].
    rewrite length_run. unfold Sample.colliding_pool. simpl. lia.
Qed.

Lemma collide_reaches_state (schedule : list nat) :
  exists s, In s Sample.collide_states /\ Sample.collide schedule = Sample.collide s.
Proof.
  induction schedule as [|i schedule IH] using rev_ind.
  - exists []. split; [by left|done].
  - destruct IH as (s & Hin & Heq).
    destruct (collide_states_closed s i Hin) as (s' & Hin' & Heq').
    exists s'. split; [done|].
    rewrite <- Heq'. unfold Sample.collide in *.
    by rewrite !run_snoc, Heq.
Qed.

(** C5: two workers that draw the same code, against one store, under every
    schedule: once both have finished, one of them has returned the code, and
    the other, whose set was rejected, has raised [KeyError] instead of drawing
    another code. The two calls yield one code. *)
Theorem concurrent_collision_raises (schedule : list nat) :
  forallb Concurrent.finished (Sample.collide schedule).1 = true ->
  let response state :=
    initial_dict state (token_of (Sample.urandom_tape 0)) ++ [("code", PyStr "ACEFHJ")] in
  Concurrent.wk_status <$> (Sample.collide schedule).1 =
    [Concurrent.Finished (Returned (response "first"));
     Concurrent.Finished (Raised (KeyError "pairing_code"))] \/
  Concurrent.wk_status <$> (Sample.collide schedule).1 =
    [Concurrent.Finished (Raised (KeyError "pairing_code"));
     Concurrent.Finished (Returned (response "second"))].
Proof.
  destruct (collide_reaches_state schedule) as (s & Hin & ->).
  unfold Sample.collide_states in Hin. simpl in Hin.
  repeat (destruct Hin as [<- | Hin]); try (exfalso; exact Hin);
    vm_compute; intros Hfin; try discriminate Hfin;
    first [left; reflexivity | right; reflexivity].
Qed.

Lemma concurrent_collision_raises_witness :
  let response state :=
    initial_dict state (token_of (Sample.urandom_tape 0)) ++ [("code", PyStr "ACEFHJ")] in
  forallb Concurrent.finished (Sample.collide [0; 1; 0; 1]%nat).1 = true /\
  (Concurrent.wk_status <$> (Sample.collide [0; 1; 0; 1]%nat).1 =
     [Concurrent.Finished (Returned (response "first"));
      Concurrent.Finished (Raised (KeyError "pairing_code"))] \/
   Concurrent.wk_status <$> (Sample.collide [0; 1; 0; 1]%nat).1 =
     [Concurrent.Finished (Raised (KeyError "pairing_code"));
      Concurrent.Finished (Returned (response "second"))]).
Proof.
  split; [vm_compute; reflexivity|].
  apply (concurrent_collision_raises [0; 1; 0; 1]%nat).
  vm_compute; reflexivity.
Defined.

(** * Further facts *)

(** ** Codes as functions of the draws *)

Lemma sampled_drawn (random_tape : nat -> nat) (seq : string) (n p : nat) (s : string) :
  seq <> EmptyString -> sampled random_tape n seq p s -> s = drawn random_tape seq n p.
Proof.
  intros Hseq.
  assert (Hpos : (0 < String.length seq)%nat) by (destruct seq; [done|simpl; lia]).
  revert p s. induction n as [|n IH]; intros p s [Hlen Hget].
  - by destruct s.
  - destruct s as [|c s]; [discriminate|]. simpl in Hlen.
    pose proof (Hget 0%nat ltac:(lia)) as H0. simpl in H0.
    rewrite Nat.add_0_r in H0. cbn [drawn]. rewrite <- H0. f_equal.
    apply IH. split; [lia|]. intros i Hi.
    specialize (Hget (S i) ltac:(lia)). simpl in Hget. rewrite Hget.
    do 3 f_equal. lia.
Qed.

Lemma length_drawn (random_tape : nat -> nat) (seq : string) (n p : nat) :
  seq <> EmptyString -> String.length (drawn random_tape seq n p) = n.
Proof.
  intros Hseq.
  assert (Hpos : (0 < String.length seq)%nat) by (destruct seq; [done|simpl; lia]).
  revert p. induction n as [|n IH]; intros p; [done|]. cbn [drawn].
  destruct (string_get_lt seq (random_tape p `mod` String.length seq)%nat) as [c ->];
    [apply Nat.mod_upper_bound; lia|].
  simpl. by rewrite IH.
Qed.


(** ** The endpoint in closed form *)

Section Calls.

Context {C : Type} `{Cache C}.
Variable urandom_tape : nat -> Z.
Variable random_tape : nat -> nat.
Variable DEVICE_PAIRING_CODE_KEY : string -> string.
Variable json_dumps : PyDict -> string.

Local Abbreviation generate_pairing_code :=
  (DeviceCodeEndpoint._generate_pairing_code (C := C) random_tape).
Local Abbreviation add_pairing_code_to_cache :=
  (DeviceCodeEndpoint._add_pairing_code_to_cache DEVICE_PAIRING_CODE_KEY json_dumps).
Local Abbreviation build_response :=
  (DeviceCodeEndpoint._build_response urandom_tape random_tape
     DEVICE_PAIRING_CODE_KEY json_dumps).
Local Abbreviation get :=
  (DeviceCodeEndpoint.get urandom_tape random_tape DEVICE_PAIRING_CODE_KEY json_dumps).
Local Abbreviation token_here w := (token_of (urandom_tape (urandom_pos w))).
Local Abbreviation code_here w := (pairing_code_at random_tape (random_pos w)).

(** X1: [_generate_pairing_code] never raises. It returns the six characters
    that the next six draws select, moves the cursor of [random] by six, logs
    the one line "Generated pairing code" with the code, and touches neither
    the cache nor [os.urandom]. *)
Theorem generate_pairing_code_effects (w : World C) :
  generate_pairing_code w =
  (Returned (code_here w),
   mkWorld (cache w) (urandom_pos w) (random_pos w + 6)
           (trace w ++ [LogDebug ("Generated pairing code " +:+ code_here w)])).
Proof.
  destruct (generate_pairing_code_run random_tape w) as (code & Hcode & ->).
  by rewrite (sampled_drawn random_tape ALLOWED_CHARACTERS 6 (random_pos w) code).
Qed.

(** The whole of a call that has a state and fuel for one iteration. *)
Lemma build_response_exact (fuel : nat) (self : Self) (w : World C) (state : string) :
  args_get self "state" = Some state ->
  build_response (S fuel) self w =
  let response := response_of state (token_here w) (code_here w) in
  let '(added, w') :=
    after_set (DEVICE_PAIRING_CODE_KEY (code_here w))
              (json_dumps (cache_value self response))
              (after_code (code_here w)
                 (mkWorld (cache w) (S (urandom_pos w)) (random_pos w) (trace w))) in
  if added then (Returned response, w')
  else (Raised (KeyError "pairing_code"), w').
Proof.
  intros Hstate.
  destruct (build_response_once urandom_tape random_tape DEVICE_PAIRING_CODE_KEY
              json_dumps fuel self w state Hstate) as (code & Hcode & ->).
  by rewrite (sampled_drawn random_tape ALLOWED_CHARACTERS 6 (random_pos w) code).
Qed.

Lemma build_response_without_state (fuel : nat) (self : Self) (w : World C) :
  args_get self "state" = None ->
  build_response fuel self w = (Raised (KeyError "state"), w).
Proof. intros Hstate. by rewrite build_response_unfold, Hstate. Qed.

(** X2: the loop of [_build_response] never goes round twice: with fuel for
    one iteration or for many, the call ends in the same way and leaves the
    same world, whatever the request and the cache. *)
Theorem one_iteration_is_all (fuel : nat) (self : Self) (w : World C) :
  build_response (S fuel) self w = build_response 1 self w.
Proof.
  destruct (args_get self "state") as [state|] eqn:Hstate.
  - by rewrite !(build_response_exact _ self w state Hstate).
  - by rewrite !build_response_without_state.
Qed.

(** X3: a returned response is the dict with the state of the request as it
    was given, the token made from the block of [os.urandom] at the cursor,
    86400, and the code that the six draws at the cursor select. It depends
    neither on the packaging argument nor on what the cache holds. *)
Theorem response_in_closed_form (fuel : nat) (self : Self) (w : World C) :
  match (build_response fuel self w).1 with
  | Returned response =>
      exists state,
        args_get self "state" = Some state /\
        response = response_of state (token_here w) (code_here w)
  | _ => True
  end.
Proof.
  destruct (args_get self "state") as [state|] eqn:Hstate.
  - destruct fuel as [|fuel].
    + by rewrite build_response_unfold, Hstate.
    + rewrite (build_response_exact fuel self w state Hstate). cbv zeta.
      destruct (after_set _ _ _) as [[|] w']; [|done].
      by exists state.
  - by rewrite build_response_without_state.
Qed.

(** X4: what a call with a state does, whether its set-attempt is accepted or
    not: it reads one block of [os.urandom] and six draws, logs the line of
    the generated code, calls the cache once, with the key of that code, the
    serialised record and 86400, and then returns the response when the cache
    answered true and raises [KeyError] when it answered false. It logs
    nothing else: the message of the collision is never logged. *)
Theorem effects_of_a_call (fuel : nat) (self : Self) (w : World C) (state : string) :
  args_get self "state" = Some state ->
  let response := response_of state (token_here w) (code_here w) in
  let key := DEVICE_PAIRING_CODE_KEY (code_here w) in
  let value := json_dumps (cache_value self response) in
  let added := (set_if_not_exists_with_expiration key value 86400 (cache w)).1 in
  let r := build_response (S fuel) self w in
  r.1 = (if added then Returned response else Raised (KeyError "pairing_code")) /\
  cache r.2 = (set_if_not_exists_with_expiration key value 86400 (cache w)).2 /\
  urandom_pos r.2 = S (urandom_pos w) /\
  random_pos r.2 = (random_pos w + 6)%nat /\
  trace r.2 =
    trace w ++ [LogDebug ("Generated pairing code " +:+ code_here w);
                CacheSet key value 86400 added].
Proof.
  intros Hstate. cbv zeta.
  rewrite (build_response_exact fuel self w state Hstate). cbv zeta.
  unfold after_set. cbn [after_code cache urandom_pos random_pos trace].
  change ONE_DAY with 86400.
  destruct (set_if_not_exists_with_expiration _ _ 86400 (cache w)) as [[|] c];
    cbn [fst snd cache urandom_pos random_pos trace];
    by rewrite <- app_assoc.
Qed.

(** X5: the ways [get] can end, given fuel for one iteration: it returns a
    response with status 200, the response of [_build_response]; or it raises
    [KeyError] for "state" when the request has none; or it raises [KeyError]
    for "pairing_code" when the request has one. It ends in no other way and
    with no other status, and leaves the world as [_build_response] does. *)
Theorem outcomes_of_get (fuel : nat) (self : Self) (w : World C) :
  (get (S fuel) self w).2 = (build_response (S fuel) self w).2 /\
  match (get (S fuel) self w).1 with
  | Returned (response, status) =>
      status = 200 /\ (build_response (S fuel) self w).1 = Returned response
  | Raised e =>
      (build_response (S fuel) self w).1 = Raised e /\
      (e = KeyError "state" /\ args_get self "state" = None \/
       e = KeyError "pairing_code" /\ is_Some (args_get self "state"))
  | OutOfFuel => False
  end.
Proof.
  unfold DeviceCodeEndpoint.get, bind.
  destruct (args_get self "state") as [state|] eqn:Hstate.
  - rewrite (build_response_exact fuel self w state Hstate). cbv zeta.
    destruct (after_set _ _ _) as [[|] w']; cbn [fst snd]; [done|].
    split; [done|]. split; [done|]. right. by split.
  - rewrite build_response_without_state by done. cbn [fst snd].
    split; [done|]. split; [done|]. by left.
Qed.

(** X6: the dict serialised for the cache has the keys state, token,
    expiration and code, in this order, followed by packaging_type when the
    request has a packaging argument, and no other key. *)
Theorem keys_of_the_written_record (fuel : nat) (self : Self) (w : World C) :
  exists evs,
    trace (build_response fuel self w).2 = trace w ++ evs /\
    sets_write json_dumps
      (fun d =>
         dict_keys d =
         ["state"; "token"; "expiration"; "code"] ++
         match args_get self "packaging" with
         | Some _ => ["packaging_type"]
         | None => []
         end)
      evs.
Proof.
  destruct (args_get self "state") as [state|] eqn:Hstate.
  - destruct (build_response_spec urandom_tape random_tape DEVICE_PAIRING_CODE_KEY
                json_dumps fuel self w state Hstate) as (evs & Htr & _ & Hall & _).
    exists evs. split; [done|].
    eapply attempts_write; [|exact Hall].
    intros code. unfold cache_value.
    by destruct (args_get self "packaging").
  - rewrite build_response_without_state by done.
    exists []. simpl. rewrite app_nil_r. split; [done|constructor].
Qed.

(** X7: [_add_pairing_code_to_cache] on a dict without "code" raises
    [KeyError] for "code" before it reads the packaging argument or calls the
    cache: the world is as it was. *)
Theorem add_to_cache_without_code (self : Self) (response_data : PyDict) (w : World C) :
  dict_get "code" response_data = None ->
  add_pairing_code_to_cache self response_data w = (Raised (KeyError "code"), w).
Proof.
  intros Hcode.
  unfold DeviceCodeEndpoint._add_pairing_code_to_cache, bind at 1, dict_getitem at 1.
  by rewrite Hcode.
Qed.

Lemma add_to_cache_run (self : Self) (response_data : PyDict) (v : PyVal)
    (w : World C) :
  dict_get "code" response_data = Some v ->
  add_pairing_code_to_cache self response_data w =
  let '(added, w') :=
    after_set (DEVICE_PAIRING_CODE_KEY (py_str v))
              (json_dumps (cache_value self response_data)) w in
  if added then (Returned true, w')
  else
    match dict_get "pairing_code" response_data with
    | Some p =>
        (Returned false,
         mkWorld (cache w') (urandom_pos w') (random_pos w')
                 (trace w' ++ [LogDebug ("Pairing code " +:+ py_str p +:+
                                         " exists, generating new code")]))
    | None => (Raised (KeyError "pairing_code"), w')
    end.
Proof.
  intros Hcode.
  unfold DeviceCodeEndpoint._add_pairing_code_to_cache, bind at 1, dict_getitem at 1.
  rewrite Hcode. unfold ret at 1.
  unfold bind at 1, cache_set_if_not_exists_with_expiration, after_set, cache_value.
  destruct (args_get self "packaging") as [p|];
    (destruct (set_if_not_exists_with_expiration _ _ _ (cache w)) as [[|] c];
     [reflexivity|];
     unfold bind, dict_getitem;
     destruct (dict_get "pairing_code" response_data); reflexivity).
Qed.

(** X8: [_add_pairing_code_to_cache] on a dict with a "code" calls the cache
    once, with the key made from the text of the code, and passes the answer
    of the cache on: true when the key was added; false, after logging the
    value under "pairing_code" as the code that exists, when the dict has that
    key; [KeyError] for "pairing_code" when it has not. *)
Theorem outcome_of_add_to_cache (self : Self) (response_data : PyDict) (v : PyVal)
    (w : World C) :
  dict_get "code" response_data = Some v ->
  let key := DEVICE_PAIRING_CODE_KEY (py_str v) in
  let value := json_dumps (cache_value self response_data) in
  let answer := set_if_not_exists_with_expiration key value 86400 (cache w) in
  let r := add_pairing_code_to_cache self response_data w in
  cache r.2 = answer.2 /\
  if answer.1 then
    r.1 = Returned true /\ trace r.2 = trace w ++ [CacheSet key value 86400 true]
  else
    match dict_get "pairing_code" response_data with
    | Some p =>
        r.1 = Returned false /\
        trace r.2 =
          trace w ++ [CacheSet key value 86400 false;
                      LogDebug ("Pairing code " +:+ py_str p +:+
                                " exists, generating new code")]
    | None =>
        r.1 = Raised (KeyError "pairing_code") /\
        trace r.2 = trace w ++ [CacheSet key value 86400 false]
    end.
Proof.
  intros Hcode. cbv zeta.
  rewrite (add_to_cache_run self response_data v w Hcode).
  unfold after_set. change ONE_DAY with 86400.
  destruct (set_if_not_exists_with_expiration _ _ 86400 (cache w)) as [[|] c];
    cbn [fst snd]; [done|].
  destruct (dict_get "pairing_code" response_data); cbn [fst snd cache trace];
    [by rewrite <- app_assoc|done].
Qed.

(** X9: calls made one after the other in one world use the entropy one
    after the other. Whatever the first call did, a response returned by
    the next call has the token of the next block of [os.urandom] and the
    code of the next six draws. *)
Theorem successive_calls_use_successive_entropy (fuel fuel' : nat) (self self' : Self)
    (w : World C) (state : string) :
  args_get self "state" = Some state ->
  let w1 := (build_response (S fuel) self w).2 in
  match (build_response fuel' self' w1).1 with
  | Returned response =>
      exists state',
        args_get self' "state" = Some state' /\
        response = response_of state'
                     (token_of (urandom_tape (S (urandom_pos w))))
                     (pairing_code_at random_tape (random_pos w + 6))
  | _ => True
  end.
Proof.
  intros Hstate. cbv zeta.
  assert (Hpos : urandom_pos (build_response (S fuel) self w).2 = S (urandom_pos w) /\
                 random_pos (build_response (S fuel) self w).2 = (random_pos w + 6)%nat).
  { rewrite (build_response_exact fuel self w state Hstate). cbv zeta.
    unfold after_set. cbn [after_code cache urandom_pos random_pos trace].
    by destruct (set_if_not_exists_with_expiration _ _ _ (cache w)) as [[|] c]. }
  destruct Hpos as [Hu Hr].
  destruct (args_get self' "state") as [state'|] eqn:Hstate'.
  - destruct fuel' as [|fuel'].
    + by rewrite build_response_unfold, Hstate'.
    + rewrite (build_response_exact fuel' self' _ state' Hstate'). cbv zeta.
      destruct (after_set _ _ _) as [[|] w']; [|done].
      exists state'. by rewrite Hu, Hr.
  - by rewrite build_response_without_state.
Qed.

End Calls.

(** ** Which codes there are *)

Lemma string_get_nth {A : Type} (f : ascii -> A) (d : A) (s : string) (i : nat)
    (c : ascii) :
  String.get i s = Some c -> nth i (f <$> String.list_ascii_of_string s) d = f c.
Proof.
  revert i. induction s as [|a s IH]; intros i Hg; simpl in *; [done|].
  destruct i as [|i]; [congruence|by apply IH].
Qed.

Lemma char_index_get (c : ascii) (s : string) :
  In c (String.list_ascii_of_string s) ->
  (char_index c s < String.length s)%nat /\ String.get (char_index c s) s = Some c.
Proof.
  induction s as [|a s IH]; simpl; [done|]. intros Hin.
  destruct (Ascii.eqb c a) eqn:E.
  - apply Ascii.eqb_eq in E. subst a. split; [lia|done].
  - destruct Hin as [->|Hin]; [by rewrite Ascii.eqb_refl in E|].
    destruct (IH Hin). split; [lia|done].
Qed.

Lemma drawn_as_wanted (random_tape : nat -> nat) (seq code : string) (p : nat) :
  (forall i c, String.get i code = Some c ->
     String.get (random_tape (p + i)%nat `mod` String.length seq)%nat seq = Some c) ->
  drawn random_tape seq (String.length code) p = code.
Proof.
  revert p. induction code as [|a code IH]; intros p Hall; [done|].
  cbn [String.length drawn].
  pose proof (Hall 0%nat a eq_refl) as H0. rewrite Nat.add_0_r in H0. rewrite H0.
  f_equal. apply IH. intros i c Hg.
  replace (S p + i)%nat with (p + S i)%nat by lia. by apply Hall.
Qed.

Lemma drawn_over (random_tape : nat -> nat) (seq : string) (n p : nat) :
  over seq (drawn random_tape seq n p).
Proof.
  unfold over. revert p. induction n as [|n IH]; intros p; cbn [drawn].
  - constructor.
  - destruct (String.get _ seq) as [c|] eqn:Hg; [|constructor].
    simpl. constructor; [by apply string_get_In in Hg|apply IH].
Qed.

(** X10: every text of six characters of the alphabet is a code that
    [_generate_pairing_code] can return: for the draws that select its
    characters, it returns it. Characters may repeat. *)
Theorem every_code_can_be_drawn `{Cache C} (code : string) (w : World C) :
  String.length code = 6%nat ->
  over "ACEFHJKLMNPRTUVWXY3479" code ->
  (DeviceCodeEndpoint._generate_pairing_code
     (fun n => tape_for ALLOWED_CHARACTERS code (n - random_pos w)) w).1 =
  Returned code.
Proof.
  intros Hlen Hover.
  destruct (generate_pairing_code_run
              (fun n => tape_for ALLOWED_CHARACTERS code (n - random_pos w)) w)
    as (code' & Hcode' & ->).
  cbn [fst]. f_equal.
  rewrite (sampled_drawn _ ALLOWED_CHARACTERS 6 (random_pos w) code') by done.
  rewrite <- Hlen. apply drawn_as_wanted. intros i c Hg.
  replace (random_pos w + i - random_pos w)%nat with i by lia.
  unfold tape_for. rewrite (string_get_nth _ _ code i c Hg).
  assert (Hin : In c (String.list_ascii_of_string ALLOWED_CHARACTERS)).
  { unfold over in Hover. rewrite Forall_forall in Hover.
    apply Hover, list_elem_of_In. eapply string_get_In. exact Hg. }
  destruct (char_index_get c ALLOWED_CHARACTERS Hin) as [Hlt Hget].
  by rewrite Nat.mod_small.
Qed.

Lemma every_code_can_be_drawn_witness :
  String.length "A3A3AA" = 6%nat /\
  over "ACEFHJKLMNPRTUVWXY3479" "A3A3AA" /\
  (DeviceCodeEndpoint._generate_pairing_code
     (fun n => tape_for ALLOWED_CHARACTERS "A3A3AA"
                 (n - random_pos (Sample.mock_world 0)))
     (Sample.mock_world 0)).1 =
  Returned "A3A3AA".
Proof.
  assert (Hover : over "ACEFHJKLMNPRTUVWXY3479" "A3A3AA").
  { unfold over. cbn.
    repeat (constructor; [repeat (first [left; reflexivity | right])|]).
    constructor. }
  split; [reflexivity|]. split; [exact Hover|].
  apply (every_code_can_be_drawn "A3A3AA" (Sample.mock_world 0)); [reflexivity|exact Hover].
Defined.


(** X11: no returned code has the character 0 or the character O, the two
    that the source names as hard to tell apart. *)
Theorem code_has_no_zero_nor_O `{Cache C} (urandom_tape : nat -> Z)
    (random_tape : nat -> nat) (key : string -> string) (json_dumps : PyDict -> string)
    (fuel : nat) (self : Self) (w : World C) :
  match (DeviceCodeEndpoint._build_response urandom_tape random_tape key json_dumps
           fuel self w).1 with
  | Returned response =>
      exists code,
        dict_get "code" response = Some (PyStr code) /\
        ~ In "0"%char (String.list_ascii_of_string code) /\
        ~ In "O"%char (String.list_ascii_of_string code)
  | _ => True
  end.
Proof.
  destruct (args_get self "state") as [state|] eqn:Hstate.
  - destruct fuel as [|fuel].
    + by rewrite build_response_unfold, Hstate.
    + rewrite (build_response_exact urandom_tape random_tape key json_dumps
                 fuel self w state Hstate). cbv zeta.
      destruct (after_set _ _ _) as [[|] w']; [|done].
      exists (pairing_code_at random_tape (random_pos w)).
      split; [reflexivity|].
      pose proof (drawn_over random_tape ALLOWED_CHARACTERS 6 (random_pos w)) as Hover.
      unfold over in Hover. rewrite Forall_forall in Hover.
      split; intros Hin; apply list_elem_of_In, Hover in Hin; cbn in Hin;
        repeat (destruct Hin as [Hin|Hin]; [discriminate Hin|]); exact Hin.
  - by rewrite build_response_without_state.
Qed.

(** ** Calls against the store *)

(** X12: a call with a state against the store. When the store has no entry
    under the key of the drawn code, the call returns and the store gains that
    one entry, the serialised record with 86400 to live, before the entries it
    had. When the store has such an entry, the call raises [KeyError] and the
    store is as it was: no entry is replaced, none is removed. *)
Theorem call_against_the_store (urandom_tape : nat -> Z) (random_tape : nat -> nat)
    (key : string -> string) (json_dumps : PyDict -> string)
    (fuel : nat) (self : Self) (w : World Store) (state : string) :
  args_get self "state" = Some state ->
  let code := pairing_code_at random_tape (random_pos w) in
  let response := response_of state (token_of (urandom_tape (urandom_pos w))) code in
  let r := DeviceCodeEndpoint._build_response urandom_tape random_tape key json_dumps
             (S fuel) self w in
  match store_get (key code) (cache w) with
  | None =>
      r.1 = Returned response /\
      cache r.2 = (key code, (json_dumps (cache_value self response), 86400)) :: cache w
  | Some _ =>
      r.1 = Raised (KeyError "pairing_code") /\ cache r.2 = cache w
  end.
Proof.
  intros Hstate. cbv zeta.
  rewrite (build_response_exact urandom_tape random_tape key json_dumps
             fuel self w state Hstate). cbv zeta.
  unfold after_set. cbn [after_code cache].
  unfold set_if_not_exists_with_expiration, StoreCache,
    store_set_if_not_exists_with_expiration.
  by destruct (store_get _ (cache w)).
Qed.


(** ** Workers against the store, under every schedule *)

Section Safety.

Variable key : string -> string.
Variable json_dumps : PyDict -> string.

Local Abbreviation codes pool := (omap Concurrent.returned_code pool).

(** The returned codes are texts whose keys the store holds. *)
Local Abbreviation held c :=
  (Forall (fun v => exists code, v = PyStr code /\ is_Some (store_get (key code) (c : Store)))).

Lemma store_grows_by_set (k k' value : string) (ttl : Z) (c : Store) :
  is_Some (store_get k c) ->
  is_Some (store_get k (store_set_if_not_exists_with_expiration k' value ttl c).2).
Proof.
  unfold store_set_if_not_exists_with_expiration.
  destruct (store_get k' c); [done|]. cbn [snd store_get].
  by destruct (String.eqb k k').
Qed.

(** One step of one worker: the store keeps its keys, and the worker keeps
    what it had returned or, if it had returned nothing, returns a code whose
    key was free and now is held. *)
Lemma step_spec (t : Concurrent.worker) (c : Store) :
  (forall k, is_Some (store_get k c) ->
             is_Some (store_get k (Concurrent.step key json_dumps t c).2)) /\
  (Concurrent.returned_code (Concurrent.step key json_dumps t c).1 =
     Concurrent.returned_code t \/
   Concurrent.returned_code t = None /\
   exists code,
     Concurrent.returned_code (Concurrent.step key json_dumps t c).1 =
       Some (PyStr code) /\
     store_get (key code) c = None /\
     is_Some (store_get (key code) (Concurrent.step key json_dumps t c).2)).
Proof.
  unfold Concurrent.step, Concurrent.returned_code.
  destruct (Concurrent.wk_status t) as [|response_data|o] eqn:Hst.
  - rewrite initial_response_data_run. cbn [cache urandom_pos].
    destruct (args_get (Concurrent.wk_self t) "state"); cbn; rewrite ?Hst; auto.
  - destruct (retry_iteration_run (Concurrent.wk_random_tape t) key json_dumps
                (Concurrent.wk_self t) response_data
                (mkWorld c (Concurrent.wk_urandom_pos t) (Concurrent.wk_random_pos t)
                         (Concurrent.wk_trace t))) as (code & _ & ->).
    cbv zeta. unfold after_set. cbn [after_code cache].
    unfold set_if_not_exists_with_expiration, StoreCache,
      store_set_if_not_exists_with_expiration.
    destruct (store_get (key code) c) eqn:Hget.
    + destruct (dict_get "pairing_code" _); cbn; auto.
    + cbn. split.
      * intros k Hk. by destruct (String.eqb k (key code)).
      * right. split; [done|]. exists code.
        rewrite dict_get_update_eq, String.eqb_refl. by eauto.
  - cbn. rewrite ?Hst. auto.
Qed.

Lemma step_nth_spec (i : nat) (pool : list Concurrent.worker) (c : Store) :
  (forall k, is_Some (store_get k c) ->
             is_Some (store_get k (Concurrent.step_nth key json_dumps i pool c).2)) /\
  (codes (Concurrent.step_nth key json_dumps i pool c).1 = codes pool \/
   exists code l1 l2,
     codes pool = l1 ++ l2 /\
     codes (Concurrent.step_nth key json_dumps i pool c).1 = l1 ++ PyStr code :: l2 /\
     store_get (key code) c = None /\
     is_Some (store_get (key code) (Concurrent.step_nth key json_dumps i pool c).2)).
Proof.
  revert i. induction pool as [|t pool IH]; intros i.
  - destruct i; cbn; auto.
  - destruct i as [|i]; cbn [Concurrent.step_nth].
    + destruct (step_spec t c) as [Hgrow Hcode].
      destruct (Concurrent.step key json_dumps t c) as [t' c']. cbn [fst snd] in *.
      split; [done|]. cbn [omap list_omap].
      destruct Hcode as [-> | (Hnone & code & -> & Hfree & Hheld)]; [by left|].
      right. exists code, [], (codes pool). by rewrite Hnone.
    + destruct (IH i) as [Hgrow Hcodes].
      destruct (Concurrent.step_nth key json_dumps i pool c) as [pool' c'].
      cbn [fst snd] in *. split; [done|]. cbn [omap list_omap].
      destruct Hcodes as [-> | (code & l1 & l2 & Hl & -> & Hfree & Hheld)];
        [by left|].
      right. destruct (Concurrent.returned_code t) as [v|].
      * exists code, (v :: l1), l2. by rewrite Hl.
      * exists code, l1, l2. by rewrite Hl.
Qed.

Lemma run_keeps_codes_apart (schedule : list nat) (pool : list Concurrent.worker)
    (c : Store) :
  NoDup (codes pool) -> held c (codes pool) ->
  NoDup (codes (Concurrent.run key json_dumps schedule pool c).1) /\
  held (Concurrent.run key json_dumps schedule pool c).2
       (codes (Concurrent.run key json_dumps schedule pool c).1).
Proof.
  revert pool c. induction schedule as [|i schedule IH]; intros pool c Hnd Hheld;
    [done|].
  cbn [Concurrent.run].
  destruct (step_nth_spec i pool c) as [Hgrow Hcodes].
  destruct (Concurrent.step_nth key json_dumps i pool c) as [pool' c'].
  cbn [fst snd] in *.
  assert (Hheld' : held c' (codes pool)).
  { eapply Forall_impl; [exact Hheld|].
    intros v (code & -> & Hs). exists code. split; [done|by apply Hgrow]. }
  apply IH.
  - destruct Hcodes as [-> | (code & l1 & l2 & Hl & -> & Hfree & _)]; [done|].
    rewrite Hl in Hnd, Hheld.
    assert (Hnew : PyStr code ∉ l1 ++ l2).
    { intros Hin. rewrite Forall_forall in Hheld.
      destruct (Hheld _ Hin) as (code' & [= <-] & Hs).
      rewrite Hfree in Hs. by destruct Hs. }
    apply NoDup_app in Hnd as (Hnd1 & Hdisj & Hnd2).
    apply NoDup_app. split; [done|]. split.
    + intros v Hv1 Hv2. apply elem_of_cons in Hv2 as [-> | Hv2].
      * apply Hnew, elem_of_app. by left.
      * by apply (Hdisj v).
    + apply NoDup_cons. split; [|done].
      intros Hin. apply Hnew, elem_of_app. by right.
  - destruct Hcodes as [-> | (code & l1 & l2 & Hl & -> & _ & Hnow)]; [done|].
    rewrite Hl in Hheld'. apply Forall_app in Hheld' as [H1 H2].
    apply Forall_app. split; [done|]. constructor; [by exists code|done].
Qed.

(** X13: workers that start together against one store, under every schedule
    and whatever the store held at the start: no two of them return the same
    code, and the store holds the key of every code returned. *)
Theorem returned_codes_are_distinct (schedule : list nat)
    (pool : list Concurrent.worker) (c : Store) :
  Forall (fun t => Concurrent.wk_status t = Concurrent.AtStart) pool ->
  NoDup (codes (Concurrent.run key json_dumps schedule pool c).1) /\
  Forall (fun v => exists code,
            v = PyStr code /\
            is_Some (store_get (key code)
                       (Concurrent.run key json_dumps schedule pool c).2))
         (codes (Concurrent.run key json_dumps schedule pool c).1).
Proof.
  intros Hstart.
  assert (Hnone : codes pool = []).
  { induction Hstart as [|t pool Ht _ IH]; [done|].
    cbn [omap list_omap]. unfold Concurrent.returned_code at 1. by rewrite Ht. }
  apply run_keeps_codes_apart; rewrite Hnone; constructor.
Qed.

End Safety.


(** ** The further theorems with a premise, at concrete inputs *)

Lemma effects_of_a_call_witness :
  let self := Sample.endpoint "abc123" (Some "ovos-core") in
  let w := Sample.mock_world 2 in
  let response :=
    response_of "abc123" (token_of (Sample.urandom_tape 0))
                (pairing_code_at Sample.counting_tape 0) in
  let key := Sample.key (pairing_code_at Sample.counting_tape 0) in
  let value := Sample.json_dumps (cache_value self response) in
  let added := (set_if_not_exists_with_expiration key value 86400 (cache w)).1 in
  let r := DeviceCodeEndpoint._build_response Sample.urandom_tape Sample.counting_tape
             Sample.key Sample.json_dumps 3 self w in
  args_get self "state" = Some "abc123" /\
  r.1 = (if added then Returned response else Raised (KeyError "pairing_code")) /\
  cache r.2 = (set_if_not_exists_with_expiration key value 86400 (cache w)).2 /\
  urandom_pos r.2 = 1%nat /\
  random_pos r.2 = 6%nat /\
  trace r.2 =
    [] ++ [LogDebug ("Generated pairing code " +:+ pairing_code_at Sample.counting_tape 0);
           CacheSet key value 86400 added].
Proof.
  split; [reflexivity|].
  apply (effects_of_a_call Sample.urandom_tape Sample.counting_tape Sample.key
           Sample.json_dumps 2 (Sample.endpoint "abc123" (Some "ovos-core"))
           (Sample.mock_world 2) "abc123").
  reflexivity.
Defined.

Lemma add_to_cache_without_code_witness :
  let self := Sample.endpoint "abc123" None in
  let response_data := initial_dict "abc123" "t" in
  dict_get "code" response_data = None /\
  DeviceCodeEndpoint._add_pairing_code_to_cache Sample.key Sample.json_dumps
    self response_data Sample.empty_world =
  (Raised (KeyError "code"), Sample.empty_world).
Proof.
  split; [reflexivity|].
  apply (add_to_cache_without_code Sample.key Sample.json_dumps
           (Sample.endpoint "abc123" None) (initial_dict "abc123" "t")
           Sample.empty_world).
  reflexivity.
Defined.

Lemma outcome_of_add_to_cache_witness :
  let self := Sample.endpoint "abc123" None in
  let response_data :=
    [("code", PyStr "ACEFHJ"); ("pairing_code", PyStr "KLMNPR")] in
  let w := Sample.mock_world 1 in
  let key := Sample.key (py_str (PyStr "ACEFHJ")) in
  let value := Sample.json_dumps (cache_value self response_data) in
  let answer := set_if_not_exists_with_expiration key value 86400 (cache w) in
  let r := DeviceCodeEndpoint._add_pairing_code_to_cache Sample.key Sample.json_dumps
             self response_data w in
  dict_get "code" response_data = Some (PyStr "ACEFHJ") /\
  cache r.2 = answer.2 /\
  r.1 = Returned false /\
  trace r.2 =
    [] ++ [CacheSet key value 86400 false;
           LogDebug "Pairing code KLMNPR exists, generating new code"].
Proof.
  split; [reflexivity|].
  exact (outcome_of_add_to_cache Sample.key Sample.json_dumps
           (Sample.endpoint "abc123" None)
           [("code", PyStr "ACEFHJ"); ("pairing_code", PyStr "KLMNPR")]
           (PyStr "ACEFHJ") (Sample.mock_world 1) eq_refl).
Defined.

Lemma successive_calls_use_successive_entropy_witness :
  let self := Sample.endpoint "abc123" None in
  let self' := Sample.endpoint "def456" (Some "ovos-core") in
  let w1 := (DeviceCodeEndpoint._build_response Sample.urandom_tape
               Sample.counting_tape Sample.key Sample.json_dumps 1 self
               Sample.empty_world).2 in
  args_get self "state" = Some "abc123" /\
  match (DeviceCodeEndpoint._build_response Sample.urandom_tape Sample.counting_tape
           Sample.key Sample.json_dumps 1 self' w1).1 with
  | Returned response =>
      exists state',
        args_get self' "state" = Some state' /\
        response = response_of state' (token_of (Sample.urandom_tape 1))
                     (pairing_code_at Sample.counting_tape 6)
  | _ => True
  end.
Proof.
  split; [reflexivity|].
  apply (successive_calls_use_successive_entropy Sample.urandom_tape
           Sample.counting_tape Sample.key Sample.json_dumps 0 1
           (Sample.endpoint "abc123" None) (Sample.endpoint "def456" (Some "ovos-core"))
           Sample.empty_world "abc123").
  reflexivity.
Defined.

Lemma call_against_the_store_witness :
  let self := Sample.endpoint "abc123" None in
  let w := Sample.empty_world in
  let code := pairing_code_at Sample.counting_tape 0 in
  let response := response_of "abc123" (token_of (Sample.urandom_tape 0)) code in
  let r := DeviceCodeEndpoint._build_response Sample.urandom_tape Sample.counting_tape
             Sample.key Sample.json_dumps 1 self w in
  args_get self "state" = Some "abc123" /\
  r.1 = Returned response /\
  cache r.2 =
    [(Sample.key code, (Sample.json_dumps (cache_value self response), 86400))].
Proof.
  split; [reflexivity|].
  apply (call_against_the_store Sample.urandom_tape Sample.counting_tape Sample.key
           Sample.json_dumps 0 (Sample.endpoint "abc123" None) Sample.empty_world
           "abc123").
  reflexivity.
Defined.

Lemma returned_codes_are_distinct_witness :
  let r := Concurrent.run Sample.key Sample.json_dumps [0; 1; 0; 1]%nat
             Sample.colliding_pool [] in
  Forall (fun t => Concurrent.wk_status t = Concurrent.AtStart) Sample.colliding_pool /\
  NoDup (omap Concurrent.returned_code r.1) /\
  Forall (fun v => exists code,
            v = PyStr code /\ is_Some (store_get (Sample.key code) r.2))
         (omap Concurrent.returned_code r.1).
Proof.
  split; [by repeat constructor|].
  apply (returned_codes_are_distinct Sample.key Sample.json_dumps [0; 1; 0; 1]%nat
           Sample.colliding_pool []).
  by repeat constructor.
Defined.

Example second_call_in_one_world :
  (DeviceCodeEndpoint._build_response Sample.urandom_tape Sample.counting_tape
     Sample.key Sample.json_dumps 1 (Sample.endpoint "def456" None)
     (DeviceCodeEndpoint._build_response Sample.urandom_tape Sample.counting_tape
        Sample.key Sample.json_dumps 1 (Sample.endpoint "abc123" None)
        Sample.empty_world).2).1 =
  Returned (response_of "def456" (token_of (Sample.urandom_tape 1)) "KLMNPR").
Proof. vm_compute. reflexivity. Qed.


(** ** Workers whose keys differ *)

Section Liveness.

Variable key : string -> string.
Variable json_dumps : PyDict -> string.

Local Abbreviation codes pool := (omap Concurrent.returned_code pool).

Lemma on_course_other_key (c : Store) (t : Concurrent.worker) (k k' : string)
    (entry : string * Z) :
  k <> k' -> on_course key c t k -> on_course key ((k', entry) :: c) t k.
Proof.
  intros Hne. unfold on_course.
  assert (Heqb : String.eqb k k' = false) by by apply String.eqb_neq.
  destruct (Concurrent.wk_status t) as [|rd|[rd|e|]]; cbn [store_get];
    rewrite ?Heqb; done.
Qed.

Lemma all_on_course_other_key (c : Store) (pool : list Concurrent.worker)
    (ks : list string) (k' : string) (entry : string * Z) :
  k' ∉ ks -> Forall2 (on_course key c) pool ks ->
  Forall2 (on_course key ((k', entry) :: c)) pool ks.
Proof.
  intros Hnot Hall. induction Hall as [|t k pool ks Ht _ IH]; [constructor|].
  apply not_elem_of_cons in Hnot as [Hne Hnot].
  constructor; [by apply on_course_other_key|by apply IH].
Qed.

(** One step of a worker on course: the store is as it was, or has one more
    entry, under the key of the worker; the worker is still on course. *)
Lemma step_on_course (t : Concurrent.worker) (k : string) (c : Store) :
  on_course key c t k ->
  ((Concurrent.step key json_dumps t c).2 = c \/
   exists entry, (Concurrent.step key json_dumps t c).2 = (k, entry) :: c) /\
  on_course key (Concurrent.step key json_dumps t c).2
            (Concurrent.step key json_dumps t c).1 k.
Proof.
  unfold on_course at 1, Concurrent.step.
  destruct (Concurrent.wk_status t) as [|response_data|[rd|e|]] eqn:Hst;
    [| | |done..].
  - intros ([state Hstate] & Hkey & Hfree).
    rewrite initial_response_data_run, Hstate.
    cbn. split; [by left|]. unfold on_course. cbn. done.
  - intros [Hkey Hfree].
    destruct (retry_iteration_run (Concurrent.wk_random_tape t) key json_dumps
                (Concurrent.wk_self t) response_data
                (mkWorld c (Concurrent.wk_urandom_pos t) (Concurrent.wk_random_pos t)
                         (Concurrent.wk_trace t))) as (code & Hcode & ->).
    apply sampled_drawn in Hcode; [|done]. cbn [random_pos] in Hcode.
    assert (Hk : key code = k) by (by rewrite Hcode).
    cbv zeta. unfold after_set. cbn [after_code cache].
    unfold set_if_not_exists_with_expiration, StoreCache,
      store_set_if_not_exists_with_expiration.
    rewrite Hk, Hfree. cbn. split; [right; by eexists|].
    unfold on_course. cbn. by rewrite dict_get_update_eq.
  - intros Hr. cbn. split; [by left|]. unfold on_course. by rewrite Hst.
Qed.

Lemma step_nth_on_course (i : nat) (pool : list Concurrent.worker) (ks : list string)
    (c : Store) :
  NoDup ks -> Forall2 (on_course key c) pool ks ->
  ((Concurrent.step_nth key json_dumps i pool c).2 = c \/
   exists k entry,
     k ∈ ks /\ (Concurrent.step_nth key json_dumps i pool c).2 = (k, entry) :: c) /\
  Forall2 (on_course key (Concurrent.step_nth key json_dumps i pool c).2)
          (Concurrent.step_nth key json_dumps i pool c).1 ks.
Proof.
  intros Hnd Hall. revert i.
  induction Hall as [|t k pool ks Ht Hall IH]; intros i.
  - destruct i; cbn; split; auto.
  - apply NoDup_cons in Hnd as [Hk Hnd].
    destruct i as [|i]; cbn [Concurrent.step_nth].
    + destruct (step_on_course t k c Ht) as [Hc Ht'].
      destruct (Concurrent.step key json_dumps t c) as [t' c']. cbn [fst snd] in *.
      destruct Hc as [-> | [entry ->]].
      * split; [by left|by constructor].
      * split; [right; exists k, entry; split; [by left|done]|].
        constructor; [done|by apply all_on_course_other_key].
    + destruct (IH Hnd i) as [Hc Hall'].
      destruct (Concurrent.step_nth key json_dumps i pool c) as [pool' c'].
      cbn [fst snd] in *.
      destruct Hc as [-> | (k' & entry & Hin & ->)].
      * split; [by left|by constructor].
      * split; [right; exists k', entry; split; [by right|done]|].
        constructor; [|done].
        apply on_course_other_key; [|done]. intros ->. done.
Qed.

Lemma run_on_course (schedule : list nat) (pool : list Concurrent.worker)
    (ks : list string) (c : Store) :
  NoDup ks -> Forall2 (on_course key c) pool ks ->
  Forall2 (on_course key (Concurrent.run key json_dumps schedule pool c).2)
          (Concurrent.run key json_dumps schedule pool c).1 ks.
Proof.
  intros Hnd. revert pool c.
  induction schedule as [|i schedule IH]; intros pool c Hall; [done|].
  cbn [Concurrent.run].
  destruct (step_nth_on_course i pool ks c Hnd Hall) as [_ Hall'].
  destruct (Concurrent.step_nth key json_dumps i pool c) as [pool' c'].
  by apply IH.
Qed.

(** X14: workers that start together, each with a state, whose next draws
    select codes with pairwise different keys, free in the store: under every
    schedule no worker raises, and once all have finished every one of them
    has returned a code, all codes different, each with its key in the
    store. *)
Theorem workers_with_different_keys_all_return (schedule : list nat)
    (pool : list Concurrent.worker) (c : Store) :
  Forall (fun t => Concurrent.wk_status t = Concurrent.AtStart /\
                   is_Some (args_get (Concurrent.wk_self t) "state")) pool ->
  NoDup (next_key key <$> pool) ->
  Forall (fun t => store_get (next_key key t) c = None) pool ->
  let r := Concurrent.run key json_dumps schedule pool c in
  Forall (fun t => forall e, Concurrent.wk_status t <> Concurrent.Finished (Raised e))
         r.1 /\
  (forallb Concurrent.finished r.1 = true ->
   length (codes r.1) = length pool /\
   NoDup (codes r.1) /\
   Forall (fun v => exists code, v = PyStr code /\ is_Some (store_get (key code) r.2))
          (codes r.1)).
Proof.
  intros Hstart Hnd Hfree. cbv zeta.
  assert (Hall : Forall2 (on_course key c) pool (next_key key <$> pool)).
  { clear Hnd. induction pool as [|t pool IH]; [constructor|].
    apply Forall_cons in Hstart as [[Hst Hstate] Hstart].
    apply Forall_cons in Hfree as [Hf Hfree].
    cbn. constructor; [|by apply IH].
    unfold on_course. by rewrite Hst. }
  pose proof (run_on_course schedule pool _ c Hnd Hall) as Hrun.
  assert (Hcodes : codes pool = []).
  { clear -Hstart. induction Hstart as [|t pool [Ht _] _ IH]; [done|].
    cbn [omap list_omap]. unfold Concurrent.returned_code at 1. by rewrite Ht. }
  destruct (run_keeps_codes_apart key json_dumps schedule pool c) as [Hnodup Hheld];
    [rewrite Hcodes; constructor..|].
  pose proof (length_run key json_dumps schedule pool c) as Hlen.
  destruct (Concurrent.run key json_dumps schedule pool c) as [pool' c'].
  cbn [fst snd] in *.
  remember (next_key key <$> pool) as ks eqn:Hks. clear Hks.
  split.
  - clear -Hrun. induction Hrun as [|t k pool' ks Ht _ IH]; constructor; [|done].
    intros e He. unfold on_course in Ht. by rewrite He in Ht.
  - intros Hfin. split; [|split]; [|exact Hnodup|exact Hheld].
    rewrite <- Hlen. clear -Hrun Hfin.
    induction Hrun as [|t k pool' ks Ht _ IH]; [done|].
    cbn in Hfin. apply andb_true_iff in Hfin as [Hf Hfin].
    cbn [omap list_omap length]. unfold Concurrent.returned_code at 1.
    unfold on_course in Ht. unfold Concurrent.finished in Hf.
    destruct (Concurrent.wk_status t) as [|rd|[rd|e|]]; try done.
    destruct Ht as [v ->]. cbn. by rewrite IH.
Qed.

End Liveness.


Lemma workers_with_different_keys_all_return_witness :
  let r := Concurrent.run Sample.key Sample.json_dumps [0; 1; 1; 0]%nat
             distinct_pool [] in
  Forall (fun t => Concurrent.wk_status t = Concurrent.AtStart /\
                   is_Some (args_get (Concurrent.wk_self t) "state")) distinct_pool /\
  NoDup (next_key Sample.key <$> distinct_pool) /\
  Forall (fun t => store_get (next_key Sample.key t) [] = None) distinct_pool /\
  Forall (fun t => forall e, Concurrent.wk_status t <> Concurrent.Finished (Raised e))
         r.1 /\
  (forallb Concurrent.finished r.1 = true ->
   length (omap Concurrent.returned_code r.1) = length distinct_pool /\
   NoDup (omap Concurrent.returned_code r.1) /\
   Forall (fun v => exists code,
             v = PyStr code /\ is_Some (store_get (Sample.key code) r.2))
          (omap Concurrent.returned_code r.1)).
Proof.
  assert (Hstart : Forall (fun t => Concurrent.wk_status t = Concurrent.AtStart /\
                                    is_Some (args_get (Concurrent.wk_self t) "state"))
                          distinct_pool).
  { repeat constructor; by eexists. }
  assert (Hkeys : NoDup (next_key Sample.key <$> distinct_pool)).
  { vm_compute. apply NoDup_cons. split; [|apply NoDup_singleton].
    intros Hin. apply list_elem_of_singleton in Hin. discriminate Hin. }
  assert (Hfree : Forall (fun t => store_get (next_key Sample.key t) [] = None)
                         distinct_pool).
  { by repeat constructor. }
  split; [exact Hstart|]. split; [exact Hkeys|]. split; [exact Hfree|].
  exact (workers_with_different_keys_all_return Sample.key Sample.json_dumps
           [0; 1; 1; 0]%nat distinct_pool [] Hstart Hkeys Hfree).
Defined.

(** Two workers that draw different codes, both to the end. *)
Example different_codes_both_return :
  let r := Concurrent.run Sample.key Sample.json_dumps [0; 1; 1; 0]%nat
             distinct_pool [] in
  omap Concurrent.returned_code r.1 = [PyStr "ACEFHJ"; PyStr "CEFHJK"] /\
  fst <$> r.2 = ["pairing.code:ACEFHJ"; "pairing.code:CEFHJK"].
Proof. vm_compute. split; reflexivity. Qed.
